(** * Cryptocurrency pricing notebook: cached fetchers, series merger,
      unit conversion

    A shallow embedding of the helper functions of
    [Cryptocurrency-Pricing-Analysis-STUDENT.ipynb]:

    - [get_quandl_data] and [get_json_data], the two download-and-cache
      helpers, as computations over an explicit world (file store, request
      log, standard output) that may raise a Python exception;
    - [merge_dfs_on_column], the loop that collects one column per data
      frame into a dictionary and hands it to [pd.DataFrame];
    - the loop that adds the [price_usd] column to every altcoin frame.

    The pandas and pickle operations the notebook calls are modelled next
    to the functions that use them, under these conventions:

    - a Series is a finite map from dates to cells, so index labels are
      unique and the order of the rows is not kept;
    - a cell is NaN or an exact number: rounding is not modelled;
    - [pickle] is any serializer with a deserializer that gives back what
      was dumped;
    - a provider answers a given request always in the same way. *)

From stdpp Require Import gmap strings list fin_maps.
From Stdlib Require Import Ascii QArith.

Local Open Scope Z_scope.

(** ** Python exceptions *)

(** The exception classes that the modelled calls can raise.  The first
    three are subclasses of [OSError]; in Python 3 [IOError] is an alias of
    [OSError]. *)
Inductive exn : Type :=
| FileNotFoundError (path : string)
| PermissionError (path : string)
| URLError (reason : string)
| UnpicklingError
| EOFError
| KeyError (key : string)
| IndexError
| ValueError (msg : string).

(** [isinstance(e, (OSError, IOError))]. *)
Definition is_OSError (e : exn) : bool :=
  match e with
  | FileNotFoundError _ | PermissionError _ | URLError _ => true
  | _ => false
  end.

(** ** Strings *)

Module Py.

(** [str.replace] with an empty pattern puts [new] before every character
    and at the end; this is the part after the leading [new]. *)
Fixpoint interleave (new s : string) : string :=
  match s with
  | EmptyString => EmptyString
  | String c s' => String c (new +:+ interleave new s')
  end.

(** Left-to-right scan of [str.replace] for a non-empty pattern.  [skip]
    counts the characters of a match that are still to be dropped. *)
Fixpoint replace_from (old new : string) (skip : nat) (s : string) : string :=
  match s with
  | EmptyString => EmptyString
  | String c s' =>
      match skip with
      | S k => replace_from old new k s'
      | O =>
          if String.prefix old s
          then new +:+ replace_from old new (String.length old - 1) s'
          else String c (replace_from old new 0 s')
      end
  end.

(** [s.replace(old, new)]: every non-overlapping occurrence of [old],
    found left to right, is replaced by [new]. *)
Definition replace (old new s : string) : string :=
  match old with
  | EmptyString => new +:+ interleave new s
  | _ => replace_from old new 0 s
  end.

(** Character-wise image of a string. *)
Fixpoint map_chars (f : Ascii.ascii -> Ascii.ascii) (s : string) : string :=
  match s with
  | EmptyString => EmptyString
  | String c s' => String (f c) (map_chars f s')
  end.

(** The characters of a string, as a list. *)
Fixpoint chars (s : string) : list Ascii.ascii :=
  match s with
  | EmptyString => []
  | String c s' => c :: chars s'
  end.

(** The directory part of a path: everything up to and including its last
    ['/'], nothing for a path without ['/']. *)
Fixpoint dirname (path : string) : string :=
  match path with
  | EmptyString => EmptyString
  | String c path' =>
      if decide ("/"%char ∈ chars path') then String c (dirname path')
      else if decide (c = "/"%char) then String c EmptyString
      else EmptyString
  end.

(** The character-wise reading of [replace('/', '-')]. *)
Definition slash_to_dash (c : Ascii.ascii) : Ascii.ascii :=
  if decide (c = "/"%char) then "-"%char else c.

End Py.

(** ** The world the fetchers run in *)

(** [files] is the content of the file store, keyed by path; [writable]
    tells whether the process may write in the cache directory;
    [create_error] gives, for a path, the exception with which the system
    refuses to create a file there whatever the permissions
    ([FileNotFoundError] when the directory of the path does not exist,
    [ValueError] for a NUL character in the path, another [OSError] for a
    name it does not accept), and [None] for a path at which a file can be
    created; [requests] logs every request sent to a data provider, oldest
    first; [stdout] collects what [print] wrote. *)
Record World : Type := mkWorld {
  files : gmap string (list Byte.byte);
  writable : bool;
  create_error : string -> option exn;
  requests : list string;
  stdout : list string
}.

(** A computation reads and updates the world and either returns a value
    or raises. *)
Definition M (A : Type) : Type := World -> (exn + A) * World.

Definition ret {A} (a : A) : M A := fun w => (inr a, w).

Definition raise {A} (e : exn) : M A := fun w => (inl e, w).

Definition bind {A B} (c : M A) (k : A -> M B) : M B :=
  fun w =>
    match c w with
    | (inr a, w') => k a w'
    | (inl e, w') => (inl e, w')
    end.

(** [try: body  except <classes matched by catches> as e: handler].  The
    handler starts from the world the body left behind; an exception the
    clause does not match passes through, and so does one raised by the
    handler. *)
Definition try_except {A} (body : M A) (catches : exn -> bool)
    (handler : exn -> M A) : M A :=
  fun w =>
    match body w with
    | (inr a, w') => (inr a, w')
    | (inl e, w') => if catches e then handler e w' else (inl e, w')
    end.

Notation "x <- c ; k" := (bind c (fun x => k))
  (at level 20, c at level 100, k at level 200, only parsing).

(** [print(line)]. *)
Definition print (line : string) : M unit :=
  fun w =>
    (inr tt,
     mkWorld (files w) (writable w) (create_error w) (requests w)
             (stdout w ++ [line])).

(** [f = open(path, 'rb')], read in full: the bytes of the file, or
    [FileNotFoundError] when there is none. *)
Definition open_rb (path : string) : M (list Byte.byte) :=
  fun w =>
    match files w !! path with
    | Some content => (inr content, w)
    | None => (inl (FileNotFoundError path), w)
    end.

(** ** pickle *)

(** What the fetchers need from [pickle]: a serializer, a deserializer that
    may raise, and the round trip. *)
Class Pickle (T : Type) : Type := {
  dumps : T -> list Byte.byte;
  loads : list Byte.byte -> exn + T;
  loads_dumps : forall t, loads (dumps t) = inr t
}.

Definition data_dir : string := "data/".

Section Fetcher.

(** The fetchers never look inside the table; they only pickle it. *)
Context {DF : Type} `{!Pickle DF}.

(** What the providers answer: [quandl.get(id, returns="pandas")] and
    [pd.read_json(url)], download and parse in one call. *)
Variable quandl_response : string -> exn + DF.
Variable read_json_response : string -> exn + DF.

(** [pickle.load(f)]. *)
Definition pickle_load (content : list Byte.byte) : M DF :=
  fun w => (loads content, w).

(** [df.to_pickle(path)]: creates or overwrites the file.  It raises what
    the system raises when no file can be created at [path], and
    [PermissionError] when the directory is not writable; nothing is
    written then. *)
Definition to_pickle (df : DF) (path : string) : M unit :=
  fun w =>
    match create_error w path with
    | Some e => (inl e, w)
    | None =>
        if writable w
        then (inr tt, mkWorld (<[path := dumps df]> (files w)) (writable w)
                              (create_error w) (requests w) (stdout w))
        else (inl (PermissionError path), w)
    end.

(** [quandl.get(quandl_id, returns="pandas")]: one request. *)
Definition quandl_get (quandl_id : string) : M DF :=
  fun w =>
    (quandl_response quandl_id,
     mkWorld (files w) (writable w) (create_error w)
             (requests w ++ [quandl_id]) (stdout w)).

(** [pd.read_json(json_url)]: one request. *)
Definition read_json (json_url : string) : M DF :=
  fun w =>
    (read_json_response json_url,
     mkWorld (files w) (writable w) (create_error w)
             (requests w ++ [json_url]) (stdout w)).

(** ['{}{}.pkl'.format(data_dir, quandl_id.replace('/','-'))] *)
Definition quandl_cache_path (quandl_id : string) : string :=
  data_dir +:+ Py.replace "/" "-" quandl_id +:+ ".pkl".

(** ['{}{}.pkl'.format(data_dir, file_name)] *)
Definition json_cache_path (file_name : string) : string :=
  data_dir +:+ file_name +:+ ".pkl".

(** The [except] branch of [get_quandl_data]. *)
Definition quandl_download (quandl_id cache_path : string) : M DF :=
  _ <- print ("Downloading " +:+ quandl_id +:+ " from Quandl") ;
  df <- quandl_get quandl_id ;
  _ <- to_pickle df cache_path ;
  _ <- print ("Cached " +:+ quandl_id +:+ " at " +:+ cache_path) ;
  ret df.

Definition get_quandl_data (quandl_id : string) : M DF :=
  let cache_path := quandl_cache_path quandl_id in
  try_except
    (f <- open_rb cache_path ;
     df <- pickle_load f ;
     _ <- print ("Loaded " +:+ quandl_id +:+ " from cache") ;
     ret df)
    is_OSError
    (fun e => quandl_download quandl_id cache_path).

(** The [except] branch of [get_json_data]. *)
Definition json_download (json_url cache_path : string) : M DF :=
  _ <- print ("Downloading " +:+ json_url) ;
  df <- read_json json_url ;
  _ <- to_pickle df cache_path ;
  _ <- print ("Cached response at " +:+ cache_path) ;
  ret df.

Definition get_json_data (json_url file_name : string) : M DF :=
  let cache_path := json_cache_path file_name in
  try_except
    (f <- open_rb cache_path ;
     df <- pickle_load f ;
     _ <- print ("Loaded " +:+ file_name +:+ " from cache") ;
     ret df)
    is_OSError
    (fun e => json_download json_url cache_path).

(** A call of either fetcher, to state what the two have in common. *)
Inductive fetch_call : Type :=
| QuandlCall (quandl_id : string)
| JsonCall (json_url file_name : string).

Definition fetch (c : fetch_call) : M DF :=
  match c with
  | QuandlCall quandl_id => get_quandl_data quandl_id
  | JsonCall json_url file_name => get_json_data json_url file_name
  end.

(** The cache file of a call. *)
Definition cache_path (c : fetch_call) : string :=
  match c with
  | QuandlCall quandl_id => quandl_cache_path quandl_id
  | JsonCall _ file_name => json_cache_path file_name
  end.

(** The request a call sends on a download, and the provider's answer. *)
Definition request (c : fetch_call) : string :=
  match c with
  | QuandlCall quandl_id => quandl_id
  | JsonCall json_url _ => json_url
  end.

Definition response (c : fetch_call) : exn + DF :=
  match c with
  | QuandlCall quandl_id => quandl_response quandl_id
  | JsonCall json_url _ => read_json_response json_url
  end.

(** The [except] branch a call runs when the cache cannot be read. *)
Definition except_branch (c : fetch_call) : M DF :=
  match c with
  | QuandlCall quandl_id =>
      quandl_download quandl_id (quandl_cache_path quandl_id)
  | JsonCall json_url file_name =>
      json_download json_url (json_cache_path file_name)
  end.

End Fetcher.

(** ** Pure code that may raise *)

Definition result (A : Type) : Type := exn + A.

Definition rbind {A B} (r : result A) (k : A -> result B) : result B :=
  match r with
  | inr a => k a
  | inl e => inl e
  end.

Notation "x <-! r ; k" := (rbind r (fun x => k))
  (at level 20, r at level 100, k at level 200, only parsing).

(** [l[i]] for a non-negative index. *)
Definition list_getitem {A} (l : list A) (i : nat) : result A :=
  match l !! i with
  | Some a => inr a
  | None => inl IndexError
  end.

(** ** Python dictionaries with string keys *)

(** A [dict] keeps its keys in insertion order, so it is modelled as an
    association list; assigning to a key that is already there keeps the
    key's position and replaces the value. *)
Module PyDict.

Fixpoint setitem {V} (k : string) (v : V) (d : list (string * V))
    : list (string * V) :=
  match d with
  | [] => [(k, v)]
  | (k', v') :: d' =>
      if decide (k' = k) then (k', v) :: d' else (k', v') :: setitem k v d'
  end.

Fixpoint getitem {V} (d : list (string * V)) (k : string) : result V :=
  match d with
  | [] => inl (KeyError k)
  | (k', v) :: d' => if decide (k' = k) then inr v else getitem d' k
  end.

Definition keys {V} (d : list (string * V)) : list string := d.*1.

Definition values {V} (d : list (string * V)) : list V := d.*2.

End PyDict.

(** ** pandas *)

(** A cell is a float: a number or NaN, the unset value.  Numbers are kept
    exact; the properties below are about alignment and about which cells
    are unset, not about rounding. *)
Inductive cell : Type :=
| NaN
| Num (x : Q).

(** [x * y] on floats, as far as unset values go: NaN is absorbing. *)
Definition cell_mul (x y : cell) : cell :=
  match x, y with
  | Num a, Num b => Num (a * b)
  | _, _ => NaN
  end.

(** A [Series] maps each label of its index (a date, here a day number)
    to a cell, with unique labels: [gmap Z cell].  A [DataFrame] has an
    index and named columns in order; in a frame built by pandas every
    column covers exactly the index ([wf_frame]). *)
Record DataFrame : Type := mkDataFrame {
  df_index : gset Z;
  df_columns : list (string * gmap Z cell)
}.

Definition wf_frame (df : DataFrame) : Prop :=
  Forall (fun c => dom c.2 = df_index df) (df_columns df).

(** [s.reindex(index)]: the cell of [s] at every label of [index], NaN
    where [s] has none. *)
Definition reindex (s : gmap Z cell) (index : gset Z) : gmap Z cell :=
  set_to_map (fun d => (d, default NaN (s !! d))) index.

(** [df[col]]: the column as a Series, [KeyError] when there is none. *)
Definition df_getitem (df : DataFrame) (col : string) : result (gmap Z cell) :=
  PyDict.getitem (df_columns df) col.

(** The cell of column [col] in the row of date [d], if both exist. *)
Definition df_cell (df : DataFrame) (col : string) (d : Z) : option cell :=
  match df_getitem df col with
  | inr s => s !! d
  | inl _ => None
  end.

(** The index of a frame built from several Series: all their labels. *)
Definition union_indexes (ss : list (gmap Z cell)) : gset Z :=
  ⋃ (dom <$> ss).

(** [pd.DataFrame(data)] for a dictionary of Series: the index is the
    union of the indexes, the columns are the keys of the dictionary in
    insertion order (pandas 0.23 and later), every Series is aligned to the
    union index. *)
Definition DataFrame_of_dict (data : list (string * gmap Z cell)) : DataFrame :=
  let index := union_indexes (PyDict.values data) in
  mkDataFrame index ((fun kv => (kv.1, reindex kv.2 index)) <$> data).

(** [a * b] on Series: both operands are aligned to the union of their
    indexes, then multiplied cell by cell. *)
Definition series_mul (a b : gmap Z cell) : gmap Z cell :=
  let index := dom a ∪ dom b in
  map_zip_with cell_mul (reindex a index) (reindex b index).

(** [df[col] = s] for a Series [s]: the Series is aligned to the index of
    the frame and stored, in place of the column [col] when there is one
    and as the last column otherwise.  A frame whose index is empty first
    takes the index of a non-empty [s]. *)
Definition df_setitem (df : DataFrame) (col : string) (s : gmap Z cell)
    : DataFrame :=
  let index :=
    if decide (df_index df = ∅) then dom s else df_index df in
  let columns :=
    if decide (df_index df = ∅)
    then (fun c => (c.1, reindex c.2 index)) <$> df_columns df
    else df_columns df in
  mkDataFrame index (PyDict.setitem col (reindex s index) columns).

(** ** The series merger *)

(** The body of [for index in range(len(dataframes))], over the indices
    still to visit.  In the assignment the right-hand side
    [dataframes[index][col]] is evaluated before the key [labels[index]]. *)
Fixpoint merge_loop (dataframes : list DataFrame) (labels : list string)
    (col : string) (range : list nat)
    (series_dict : list (string * gmap Z cell))
    : result (list (string * gmap Z cell)) :=
  match range with
  | [] => inr series_dict
  | index :: range' =>
      df <-! list_getitem dataframes index ;
      s <-! df_getitem df col ;
      label <-! list_getitem labels index ;
      merge_loop dataframes labels col range' (PyDict.setitem label s series_dict)
  end.

Definition merge_dfs_on_column (dataframes : list DataFrame)
    (labels : list string) (col : string) : result DataFrame :=
  series_dict <-! merge_loop dataframes labels col
                    (seq 0 (length dataframes)) [] ;
  inr (DataFrame_of_dict series_dict).

(** ** Conversion to USD *)

(** One pass of the loop body:
    [altcoin_data[altcoin]['price_usd'] =
       altcoin_data[altcoin]['weightedAverage']
       * btc_usd_datasets['avg_btc_price_usd']].
    The frame stored under [altcoin] is updated in place, which the model
    renders by storing the updated frame under the same key. *)
Definition price_usd_step (btc_usd_datasets : DataFrame) (altcoin : string)
    (altcoin_data : list (string * DataFrame))
    : result (list (string * DataFrame)) :=
  df <-! PyDict.getitem altcoin_data altcoin ;
  rate <-! df_getitem df "weightedAverage" ;
  btc_price <-! df_getitem btc_usd_datasets "avg_btc_price_usd" ;
  inr (PyDict.setitem altcoin
         (df_setitem df "price_usd" (series_mul rate btc_price)) altcoin_data).

(** [for altcoin in altcoin_data.keys(): ...].  When a pass raises, the
    frames updated by the earlier passes stay updated. *)
Fixpoint price_usd_loop (btc_usd_datasets : DataFrame) (keys : list string)
    (altcoin_data : list (string * DataFrame))
    : result unit * list (string * DataFrame) :=
  match keys with
  | [] => (inr tt, altcoin_data)
  | altcoin :: keys' =>
      match price_usd_step btc_usd_datasets altcoin altcoin_data with
      | inr altcoin_data' => price_usd_loop btc_usd_datasets keys' altcoin_data'
      | inl e => (inl e, altcoin_data)
      end
  end.

Definition convert_prices_to_usd (btc_usd_datasets : DataFrame)
    (altcoin_data : list (string * DataFrame))
    : result unit * list (string * DataFrame) :=
  price_usd_loop btc_usd_datasets (PyDict.keys altcoin_data) altcoin_data.

(** ** The notebook's calls of the helpers *)

(** A pure result inside a computation. *)
Definition lift_result {A} (r : result A) : M A := fun w => (r, w).

Section Poloniex.

Context {DF : Type} `{!Pickle DF}.

Variable read_json_response : string -> exn + DF.

(** [df.set_index(col)], which the notebook applies to the table that
    Poloniex returned; it raises [KeyError] when the column is missing. *)
Variable set_index : DF -> string -> exn + DF.

(** [start_date.timestamp()] and [end_date.timestamp()] as [format] prints
    them.  [end_date] is [datetime.now()], read once when the cell runs, so
    it differs from one session to the next. *)
Variable start_timestamp : string.
Variable end_timestamp : string.

(** [pediod = 86400], as [format] prints it. *)
Definition pediod : string := "86400".

(** [base_polo_url.format(pair, start, end, period)] *)
Definition base_polo_url_format (pair start_ end_ period : string) : string :=
  "https://poloniex.com/public?command=returnChartData&currencyPair="
  +:+ pair +:+ "&start=" +:+ start_ +:+ "&end=" +:+ end_
  +:+ "&period=" +:+ period.

Definition get_crypto_data (poloniex_pair : string) : M DF :=
  let json_url :=
    base_polo_url_format poloniex_pair start_timestamp end_timestamp pediod in
  data_df <- get_json_data read_json_response json_url poloniex_pair ;
  data_df <- lift_result (set_index data_df "date") ;
  ret data_df.

(** [for altcoin in altcoins: ...] of the download cell.  [altcoin_data]
    is a global dictionary: when a download raises, the entries stored so
    far stay in it. *)
Fixpoint altcoin_loop (altcoins : list string)
    (altcoin_data : list (string * DF)) (w : World)
    : (result unit * list (string * DF)) * World :=
  match altcoins with
  | [] => ((inr tt, altcoin_data), w)
  | altcoin :: altcoins' =>
      let coinpair := "BTC_" +:+ altcoin in
      match get_crypto_data coinpair w with
      | (inr crypto_price_df, w') =>
          altcoin_loop altcoins'
            (PyDict.setitem altcoin crypto_price_df altcoin_data) w'
      | (inl e, w') => ((inl e, altcoin_data), w')
      end
  end.

Definition altcoins : list string :=
  ["ETH"; "LTC"; "XRP"; "ETC"; "STR"; "DASH"; "SC"; "XMR"; "XEM"].

(** The whole cell: [altcoin_data = {}] and the loop. *)
Definition pull_altcoins (w : World)
    : (result unit * list (string * DF)) * World :=
  altcoin_loop altcoins [] w.

End Poloniex.

Section Exchanges.

Context {DF : Type} `{!Pickle DF}.

Variable quandl_response : string -> exn + DF.

(** [for exchange in exchanges: ...] of the cell that pulls the other
    exchanges. *)
Fixpoint exchange_loop (exchanges : list string)
    (exchange_data : list (string * DF)) (w : World)
    : (result unit * list (string * DF)) * World :=
  match exchanges with
  | [] => ((inr tt, exchange_data), w)
  | exchange :: exchanges' =>
      let exchange_code := "BCHARTS/" +:+ exchange +:+ "USD" in
      match get_quandl_data quandl_response exchange_code w with
      | (inr btc_exchange_df, w') =>
          exchange_loop exchanges'
            (PyDict.setitem exchange btc_exchange_df exchange_data) w'
      | (inl e, w') => ((inl e, exchange_data), w')
      end
  end.

Definition exchanges : list string := ["COINBASE"; "BITSTAMP"; "ITBIT"].

(** The Kraken cell and the cell after it:
    [btc_usd_price_kraken = get_quandl_data('BCHARTS/KRAKENUSD')], then
    [exchange_data = {}], [exchange_data['KRAKEN'] = btc_usd_price_kraken]
    and the loop. *)
Definition pull_exchanges (w : World)
    : (result unit * list (string * DF)) * World :=
  match get_quandl_data quandl_response "BCHARTS/KRAKENUSD" w with
  | (inr btc_usd_price_kraken, w') =>
      exchange_loop exchanges
        (PyDict.setitem "KRAKEN" btc_usd_price_kraken []) w'
  | (inl e, w') => ((inl e, []), w')
  end.

End Exchanges.

(** [merge_dfs_on_column(list(d.values()), list(d.keys()), col)], the way
    the notebook calls the merger on [exchange_data] and [altcoin_data]. *)
Definition merge_dict (d : list (string * DataFrame)) (col : string)
    : result DataFrame :=
  merge_dfs_on_column (PyDict.values d) (PyDict.keys d) col.

(** [combined_df['BTC'] = btc_usd_datasets['avg_btc_price_usd']] *)
Definition add_btc_column (combined_df btc_usd_datasets : DataFrame)
    : result DataFrame :=
  btc_price <-! df_getitem btc_usd_datasets "avg_btc_price_usd" ;
  inr (df_setitem combined_df "BTC" btc_price).

(** ** Reading aids for the properties *)

(** The loop of [merge_dfs_on_column] again, walking the two lists side by
    side instead of indexing them ([merge_loop_walk] relates the two). *)
Fixpoint merge_walk (dataframes : list DataFrame) (labels : list string)
    (col : string) (series_dict : list (string * gmap Z cell))
    : result (list (string * gmap Z cell)) :=
  match dataframes with
  | [] => inr series_dict
  | df :: dataframes' =>
      s <-! df_getitem df col ;
      match labels with
      | [] => inl IndexError
      | label :: labels' =>
          merge_walk dataframes' labels' col (PyDict.setitem label s series_dict)
      end
  end.

(** A list of labels without its repetitions: each label stays where it
    first occurs. *)
Fixpoint first_occurrences (labels : list string) : list string :=
  match labels with
  | [] => []
  | l :: labels' => l :: filter (fun l' => l' ≠ l) (first_occurrences labels')
  end.

(** The column labels of a frame, in order. *)
Definition df_labels (df : DataFrame) : list string :=
  PyDict.keys (df_columns df).

(** Every row of [df] whose date the series [btc_price] lacks has an unset
    [price_usd]. *)
Definition unset_off_index (btc_price : gmap Z cell) (df : DataFrame) : Prop :=
  forall d, d ∈ df_index df -> d ∉ dom btc_price ->
    df_cell df "price_usd" d = Some NaN.

(** The lines a call prints: on a cache hit, before a download and after
    storing the download. *)
Definition loaded_line (c : fetch_call) : string :=
  match c with
  | QuandlCall quandl_id => "Loaded " +:+ quandl_id +:+ " from cache"
  | JsonCall _ file_name => "Loaded " +:+ file_name +:+ " from cache"
  end.

Definition downloading_line (c : fetch_call) : string :=
  match c with
  | QuandlCall quandl_id => "Downloading " +:+ quandl_id +:+ " from Quandl"
  | JsonCall json_url _ => "Downloading " +:+ json_url
  end.

Definition cached_line (c : fetch_call) : string :=
  match c with
  | QuandlCall quandl_id =>
      "Cached " +:+ quandl_id +:+ " at " +:+ quandl_cache_path quandl_id
  | JsonCall _ file_name => "Cached response at " +:+ json_cache_path file_name
  end.

(** The world after a sequence of calls, whether each returned or raised
    (as when every call sits in a notebook cell of its own). *)
Definition run_calls {DF : Type} `{!Pickle DF}
    (quandl_response read_json_response : string -> exn + DF)
    (calls : list fetch_call) (w : World) : World :=
  foldl (fun w c => (fetch quandl_response read_json_response c w).2) w calls.

(** The cache file at [path] holds the pickle of [df]. *)
Definition cached {DF : Type} `{!Pickle DF} (w : World) (path : string)
    (df : DF) : Prop :=
  exists content, files w !! path = Some content /\ loads content = inr df.

(** The table stored under an exchange is the one in the cache file of
    its Quandl code. *)
Definition exchange_cached {DF : Type} `{!Pickle DF} (w : World)
    (kv : string * DF) : Prop :=
  cached w (quandl_cache_path ("BCHARTS/" +:+ kv.1 +:+ "USD")) kv.2.

(** What one pass of the conversion loop makes of a frame. *)
Definition with_price_usd (btc_price : gmap Z cell) (df : DataFrame)
    : result DataFrame :=
  rate <-! df_getitem df "weightedAverage" ;
  inr (df_setitem df "price_usd" (series_mul rate btc_price)).

(** The entry [kv'] is the entry [kv] with its frame converted. *)
Definition converted (btc_price : gmap Z cell) (kv kv' : string * DataFrame)
    : Prop :=
  kv'.1 = kv.1 /\ with_price_usd btc_price kv.2 = inr kv'.2.

(** The conversion loop read as one pass over the entries of
    [altcoin_data]: it stops at the first frame that cannot be converted
    and leaves that frame and the later ones as they are. *)
Fixpoint with_price_usd_all (btc_price : gmap Z cell)
    (altcoin_data : list (string * DataFrame))
    : result unit * list (string * DataFrame) :=
  match altcoin_data with
  | [] => (inr tt, [])
  | (altcoin, df) :: rest =>
      match with_price_usd btc_price df with
      | inr df' =>
          let '(r, rest') := with_price_usd_all btc_price rest in
          (r, (altcoin, df') :: rest')
      | inl e => (inl e, (altcoin, df) :: rest)
      end
  end.

(** ** Sample data *)

(** A small pickle: the table is an opaque payload, stored behind the
    protocol marker [0x80] that opens a pickle stream.  An empty file
    raises [EOFError], any other first byte [UnpicklingError]. *)
Module Sample.

Definition framed_dumps (t : list Byte.byte) : list Byte.byte := Byte.x80 :: t.

Definition framed_loads (b : list Byte.byte) : exn + list Byte.byte :=
  match b with
  | [] => inl EOFError
  | Byte.x80 :: t => inr t
  | _ :: _ => inl UnpicklingError
  end.

#[global] Instance framed_pickle : Pickle (list Byte.byte) :=
  {| dumps := framed_dumps;
     loads := framed_loads;
     loads_dumps := fun t => eq_refl |}.

Definition kraken_table : list Byte.byte := [Byte.x4b; Byte.x52].

(** Quandl knows one dataset; Poloniex answers one URL. *)
Definition quandl (quandl_id : string) : exn + list Byte.byte :=
  if decide (quandl_id = "BCHARTS/KRAKENUSD") then inr kraken_table
  else inl (ValueError "unknown dataset").

Definition poloniex (json_url : string) : exn + list Byte.byte :=
  if decide (json_url = "https://poloniex.com/public?currencyPair=BTC_ETH")
  then inr [Byte.x45]
  else inl (URLError "not found").

(** A file system whose only directory is [data/]: a file can be created
    directly in it and nowhere else, and no path may hold a NUL. *)
Definition in_data_dir (path : string) : option exn :=
  if decide ("000"%char ∈ Py.chars path)
  then Some (ValueError "embedded null byte")
  else if decide (Py.dirname path = data_dir) then None
  else Some (FileNotFoundError path).

(** An empty, writable cache directory. *)
Definition cold : World := mkWorld ∅ true in_data_dir [] [].

(** The Kraken table is already cached. *)
Definition warm : World :=
  mkWorld {[ "data/BCHARTS-KRAKENUSD.pkl" := framed_dumps kraken_table ]}
          true in_data_dir [] [].

(** The cache file is there but is no pickle. *)
Definition corrupt : World :=
  mkWorld {[ "data/BCHARTS-KRAKENUSD.pkl" := [Byte.x00] ]} true in_data_dir
          [] [].

(** Frames of two exchanges: Kraken has days 2 and 3, itBit days 1 and 2;
    [bare] has no price column. *)
Definition kraken : DataFrame :=
  mkDataFrame {[2; 3]}
    [("Weighted Price", {[2 := Num 20; 3 := Num 30]});
     ("Volume", {[2 := Num 7; 3 := Num 0]})].

Definition itbit : DataFrame :=
  mkDataFrame {[1; 2]} [("Weighted Price", {[1 := Num 11; 2 := Num 21]})].

Definition bare : DataFrame :=
  mkDataFrame {[1; 2]} [("Volume", {[1 := Num 5; 2 := Num 6]})].

(** An altcoin frame over days 2 to 4 and a price index over days 1 to 3. *)
Definition eth : DataFrame :=
  mkDataFrame {[2; 3; 4]}
    [("weightedAverage", {[2 := Num (1 # 2); 3 := Num (1 # 4); 4 := Num (1 # 5)]})].

Definition btc_index : DataFrame :=
  mkDataFrame {[1; 2; 3]}
    [("avg_btc_price_usd", {[1 := Num 100; 2 := Num 200; 3 := NaN]})].

(** The chart data of one pair for one time window, and [set_index] on the
    opaque tables: the [date] column is marked as the index. *)
Definition chart (json_url : string) : exn + list Byte.byte :=
  if decide (json_url
             = base_polo_url_format "BTC_ETH" "1420070400.0" "1500000000.0"
                 pediod)
  then inr [Byte.x45]
  else inl (URLError "not found").

Definition set_index (df : list Byte.byte) (col : string)
    : exn + list Byte.byte :=
  if decide (col = "date") then inr (Byte.x64 :: df) else inl (KeyError col).

End Sample.

(** * Properties *)

(** ** Strings *)

Lemma replace_slash (s : string) :
  Py.replace "/" "-" s = Py.map_chars Py.slash_to_dash s.
Proof.
  unfold Py.replace. induction s as [|c s IH]; [done|].
  cbn [Py.replace_from Py.map_chars String.prefix String.length].
  unfold Py.slash_to_dash at 1.
  destruct (Ascii.ascii_dec _ _) as [<-|Hne].
  - rewrite decide_True by done.
    assert (String.prefix "" s = true) as -> by (by destruct s).
    change (1 - 1)%nat with 0%nat. by rewrite IH.
  - rewrite decide_False by congruence. by rewrite IH.
Qed.

Lemma chars_app (s t : string) : Py.chars (s +:+ t) = Py.chars s ++ Py.chars t.
Proof. induction s as [|c s IH]; [done|]. cbn. by rewrite <- IH. Qed.

Lemma chars_map_chars f s : Py.chars (Py.map_chars f s) = f <$> Py.chars s.
Proof. induction s as [|c s IH]; [done|]. cbn. by rewrite IH. Qed.

Lemma no_slash_after_replace (s : string) :
  "/"%char ∉ Py.chars (Py.replace "/" "-" s).
Proof.
  rewrite replace_slash, chars_map_chars. intros [c [Hc _]]%list_elem_of_fmap.
  unfold Py.slash_to_dash in Hc. case_decide; [done|congruence].
Qed.

Lemma dirname_no_slash (s : string) :
  "/"%char ∉ Py.chars s -> Py.dirname s = EmptyString.
Proof.
  destruct s as [|c s]; [done|]. cbn. intros [Hc Hs]%not_elem_of_cons.
  rewrite decide_False by done. by rewrite decide_False by congruence.
Qed.

Lemma dirname_app_slash (dir name : string) :
  "/"%char ∉ Py.chars name ->
  Py.dirname ((dir +:+ "/") +:+ name) = dir +:+ "/".
Proof.
  intros Hname. induction dir as [|c dir IH].
  - change (Py.dirname (String "/" name) = "/"). cbn.
    rewrite decide_False by done. by rewrite decide_True.
  - change (Py.dirname (String c ((dir +:+ "/") +:+ name))
            = String c (dir +:+ "/")).
    cbn. rewrite decide_True; [by rewrite IH|].
    rewrite !chars_app. apply elem_of_app. left. apply elem_of_app. right.
    apply list_elem_of_here.
Qed.

(** The cache file of [get_quandl_data] always lies in the cache directory
    itself. *)
Lemma quandl_cache_dir (quandl_id : string) :
  Py.dirname (quandl_cache_path quandl_id) = data_dir.
Proof.
  unfold quandl_cache_path.
  change data_dir with ("data" +:+ "/").
  apply (dirname_app_slash "data").
  rewrite chars_app. intros [Hin|Hin]%elem_of_app.
  - by apply no_slash_after_replace in Hin.
  - cbn in Hin. by repeat (apply elem_of_cons in Hin as [?|Hin]; [done|]);
      apply elem_of_nil in Hin.
Qed.

(** ** The cached fetchers *)

Section FetcherFacts.

Context {DF : Type} `{!Pickle DF}.
Variable quandl_response : string -> exn + DF.
Variable read_json_response : string -> exn + DF.

#[local] Abbreviation fetch := (fetch quandl_response read_json_response).
#[local] Abbreviation response := (response quandl_response read_json_response).
#[local] Abbreviation except_branch :=
  (except_branch quandl_response read_json_response).

Ltac run_fetch :=
  unfold get_quandl_data, get_json_data, quandl_download, json_download,
    try_except, bind, open_rb, pickle_load, print, ret, quandl_get,
    read_json, to_pickle; cbn.

Lemma fetch_miss c w :
  files w !! cache_path c = None -> fetch c w = except_branch c w.
Proof.
  intros Hnone.
  destruct c; cbn [fetch cache_path except_branch] in *; run_fetch;
    by rewrite Hnone.
Qed.

Lemma fetch_hit c w content df :
  files w !! cache_path c = Some content -> loads content = inr df ->
  exists w', fetch c w = (inr df, w') /\ files w' = files w
    /\ writable w' = writable w /\ requests w' = requests w.
Proof.
  intros Hsome Hload.
  destruct c; cbn [fetch cache_path] in *; run_fetch;
    rewrite Hsome; cbn; rewrite Hload; eauto.
Qed.

Lemma fetch_load_raises c w content e :
  files w !! cache_path c = Some content -> loads content = inl e ->
  fetch c w = if is_OSError e then except_branch c w else (inl e, w).
Proof.
  intros Hsome Hload.
  destruct c; cbn [fetch cache_path except_branch] in *; run_fetch;
    rewrite Hsome; cbn; rewrite Hload; by destruct (is_OSError e).
Qed.

Lemma except_branch_returns c w df :
  response c = inr df -> create_error w (cache_path c) = None ->
  writable w = true ->
  exists w', except_branch c w = (inr df, w')
    /\ files w' = <[cache_path c := dumps df]> (files w)
    /\ writable w' = true /\ requests w' = requests w ++ [request c].
Proof.
  intros Hresp Hpath Hw.
  destruct c; cbn [except_branch cache_path response request] in *; run_fetch;
    rewrite Hresp; cbn; rewrite Hpath, Hw; cbn; eauto.
Qed.

Lemma except_branch_raises c w e :
  response c = inl e ->
  exists w', except_branch c w = (inl e, w') /\ files w' = files w
    /\ writable w' = writable w /\ requests w' = requests w ++ [request c].
Proof.
  intros Hresp.
  destruct c; cbn [except_branch cache_path response request] in *; run_fetch;
    rewrite Hresp; cbn; eauto.
Qed.

Lemma except_branch_files c w :
  files (except_branch c w).2 = files w
  \/ exists df, files (except_branch c w).2 = <[cache_path c := dumps df]> (files w).
Proof.
  destruct (response c) as [e|df] eqn:Hresp.
  - destruct (except_branch_raises c w e Hresp) as (w' & -> & Hf & _). by left.
  - destruct (create_error w (cache_path c)) as [e|] eqn:Hpath.
    { left. destruct c; cbn [except_branch cache_path response] in *;
        run_fetch; rewrite Hresp; cbn; by rewrite Hpath. }
    destruct (writable w) eqn:Hw.
    + destruct (except_branch_returns c w df Hresp Hpath Hw)
        as (w' & -> & Hf & _).
      right. by exists df.
    + left. destruct c; cbn [except_branch cache_path response] in *;
        run_fetch; rewrite Hresp; cbn; by rewrite Hpath, Hw.
Qed.

(** C1, as amended: when the cache file of the identifier can be created
    (its directory exists and takes the name, and the cache directory is
    writable), there is no such file yet and the provider answers with a
    table, two calls with the same identifier send exactly one request.
    The first call downloads the table and stores its pickle in the cache
    file; the second call sends nothing, changes no file and returns the
    same table, read back from that file. *)
Theorem fetch_twice_one_request (c : fetch_call) (w : World) (df : DF) :
  create_error w (cache_path c) = None ->
  writable w = true ->
  files w !! cache_path c = None ->
  response c = inr df ->
  exists w1 w2,
    fetch c w = (inr df, w1)
    /\ fetch c w1 = (inr df, w2)
    /\ files w1 !! cache_path c = Some (dumps df)
    /\ requests w1 = requests w ++ [request c]
    /\ requests w2 = requests w1
    /\ files w2 = files w1.
Proof.
  intros Hpath Hw Hnone Hresp.
  destruct (except_branch_returns c w df Hresp Hpath Hw)
    as (w1 & Hrun & Hf1 & Hw1 & Hr1).
  assert (Hstored : files w1 !! cache_path c = Some (dumps df))
    by (rewrite Hf1; apply lookup_insert_eq).
  destruct (fetch_hit c w1 (dumps df) df Hstored (loads_dumps df))
    as (w2 & Hrun2 & Hf2 & _ & Hr2).
  exists w1, w2. rewrite (fetch_miss c w Hnone). done.
Qed.

(** An [OSError] raised while unpickling sends the call to the download,
    as a missing file does. *)
Lemma oserror_on_load_downloads (c : fetch_call) (w : World)
    (content : list Byte.byte) (e : exn) (df : DF) :
  files w !! cache_path c = Some content ->
  loads content = inl e ->
  is_OSError e = true ->
  response c = inr df -> create_error w (cache_path c) = None ->
  writable w = true ->
  exists w', fetch c w = (inr df, w')
    /\ files w' = <[cache_path c := dumps df]> (files w)
    /\ requests w' = requests w ++ [request c].
Proof.
  intros Hsome Hload Hos Hresp Hpath Hw.
  rewrite (fetch_load_raises c w content e Hsome Hload), Hos.
  destruct (except_branch_returns c w df Hresp Hpath Hw)
    as (w' & ? & ? & _ & ?).
  by exists w'.
Qed.

(** With a readable cache entry two calls send no request and change no
    file. *)
Lemma fetch_twice_cached (c : fetch_call) (w : World)
    (content : list Byte.byte) (df : DF) :
  files w !! cache_path c = Some content ->
  loads content = inr df ->
  exists w1 w2,
    fetch c w = (inr df, w1) /\ fetch c w1 = (inr df, w2)
    /\ requests w2 = requests w /\ files w2 = files w.
Proof.
  intros Hsome Hload.
  destruct (fetch_hit c w content df Hsome Hload) as (w1 & Hrun1 & Hf1 & _ & Hr1).
  destruct (fetch_hit c w1 content df) as (w2 & Hrun2 & Hf2 & _ & Hr2);
    [by rewrite Hf1|done|].
  exists w1, w2. repeat split; congruence.
Qed.

(** C3, as amended: when the cache file exists and unpickling it raises an
    exception that is not an [OSError] (as [UnpicklingError] and [EOFError]
    are not), the call raises that exception.  Nothing is requested,
    nothing is written, and no table is returned: the world is as before
    the call. *)
Theorem unreadable_cache_entry (c : fetch_call) (w : World)
    (content : list Byte.byte) (e : exn) :
  files w !! cache_path c = Some content ->
  loads content = inl e ->
  is_OSError e = false ->
  fetch c w = (inl e, w).
Proof.
  intros Hsome Hload Hos.
  by rewrite (fetch_load_raises c w content e Hsome Hload), Hos.
Qed.

(** C4, as amended: [get_quandl_data] names its cache file by the
    identifier with every ['/'] turned into ['-'], between the cache
    directory and [.pkl]; the file name has no ['/'] left, so the file
    sits in the cache directory itself.  [get_json_data] takes the file
    name it is given as it is.  Either way the cache file of a call is the
    only file the call can create or change. *)
Theorem cache_file_of_call :
  (forall quandl_id,
     cache_path (QuandlCall quandl_id)
       = data_dir +:+ Py.map_chars Py.slash_to_dash quandl_id +:+ ".pkl"
     /\ "/"%char ∉
          Py.chars (Py.map_chars Py.slash_to_dash quandl_id +:+ ".pkl"))
  /\ (forall json_url file_name,
       cache_path (JsonCall json_url file_name)
         = data_dir +:+ file_name +:+ ".pkl")
  /\ (forall c w,
       files (fetch c w).2 = files w
       \/ exists df,
            files (fetch c w).2 = <[cache_path c := dumps df]> (files w)).
Proof.
  split; [|split].
  - intros quandl_id. cbn [cache_path]. unfold quandl_cache_path.
    rewrite replace_slash. split; [done|].
    rewrite chars_app, chars_map_chars. intros [Hin|Hin]%elem_of_app.
    + apply list_elem_of_fmap in Hin as (ch & Hch & _).
      unfold Py.slash_to_dash in Hch. case_decide; [done|congruence].
    + cbn in Hin. by repeat (apply elem_of_cons in Hin as [?|Hin]; [done|]);
        apply elem_of_nil in Hin.
  - done.
  - intros c w. destruct (files w !! cache_path c) as [content|] eqn:Hfile.
    + destruct (loads content) as [e|df] eqn:Hload.
      * rewrite (fetch_load_raises c w content e Hfile Hload).
        destruct (is_OSError e); [apply except_branch_files|by left].
      * destruct (fetch_hit c w content df Hfile Hload) as (w' & -> & ? & _).
        by left.
    + rewrite (fetch_miss c w Hfile). apply except_branch_files.
Qed.


End FetcherFacts.

(** ** Dictionaries *)

Section DictFacts.

Context {V : Type}.
Implicit Types (d : list (string * V)) (k : string) (v : V).

Lemma keys_setitem k v d :
  PyDict.keys (PyDict.setitem k v d)
  = if decide (k ∈ PyDict.keys d) then PyDict.keys d else PyDict.keys d ++ [k].
Proof.
  unfold PyDict.keys. induction d as [|[k' v'] d IH]; cbn.
  - rewrite decide_False; [done|]. apply not_elem_of_nil.
  - destruct (decide (k' = k)) as [->|Hne]; cbn.
    + rewrite decide_True; [done|]. apply elem_of_cons; by left.
    + rewrite IH. destruct (decide (k ∈ d.*1)) as [Hin|Hnin].
      * rewrite decide_True; [done|]. apply elem_of_cons; by right.
      * rewrite decide_False; [done|].
        intros [?|?]%elem_of_cons; congruence.
Qed.

Lemma setitem_fresh k v d :
  k ∉ PyDict.keys d -> PyDict.setitem k v d = d ++ [(k, v)].
Proof.
  unfold PyDict.keys. induction d as [|[k' v'] d IH]; cbn; [done|].
  intros Hnin. apply not_elem_of_cons in Hnin as [Hne Hnin].
  rewrite decide_False by congruence. by rewrite IH.
Qed.

Lemma getitem_setitem k k' v d :
  PyDict.getitem (PyDict.setitem k v d) k'
  = if decide (k = k') then inr v else PyDict.getitem d k'.
Proof.
  induction d as [|[k0 v0] d IH]; cbn.
  - by destruct (decide (k = k')).
  - destruct (decide (k0 = k)) as [->|Hne]; cbn.
    + by destruct (decide (k = k')).
    + destruct (decide (k0 = k')) as [->|Hne'].
      * by rewrite decide_False by congruence.
      * apply IH.
Qed.

Lemma getitem_raises d k e :
  PyDict.getitem d k = inl e -> e = KeyError k /\ k ∉ PyDict.keys d.
Proof.
  unfold PyDict.keys. induction d as [|[k0 v0] d IH]; cbn.
  - intros [= <-]. split; [done|apply not_elem_of_nil].
  - destruct (decide (k0 = k)) as [->|Hne]; [done|].
    intros [-> Hnin]%IH. split; [done|].
    apply not_elem_of_cons. split; [congruence|done].
Qed.

Lemma getitem_missing d k :
  k ∉ PyDict.keys d -> PyDict.getitem d k = inl (KeyError k).
Proof.
  intros Hnin. destruct (PyDict.getitem d k) as [e|v] eqn:Hget.
  - by apply getitem_raises in Hget as [-> _].
  - exfalso. apply Hnin. clear Hnin. unfold PyDict.keys.
    induction d as [|[k0 v0] d IH]; cbn in *; [done|].
    destruct (decide (k0 = k)) as [->|Hne]; [by left|right; auto].
Qed.

Lemma getitem_lookup d j k v :
  NoDup (PyDict.keys d) -> d !! j = Some (k, v) -> PyDict.getitem d k = inr v.
Proof.
  unfold PyDict.keys. revert j.
  induction d as [|[k0 v0] d IH]; intros j Hnd Hj; [done|].
  cbn in Hnd. apply NoDup_cons in Hnd as [Hnin Hnd]. cbn.
  destruct j as [|j]; cbn in Hj.
  - injection Hj as -> ->. by rewrite decide_True.
  - rewrite decide_False; [by eapply IH|].
    intros ->. apply Hnin. apply list_elem_of_fmap.
    exists (k, v). split; [done|]. by eapply list_elem_of_lookup_2.
Qed.

Lemma getitem_fmap {W} (f : V -> W) d k :
  PyDict.getitem ((fun kv => (kv.1, f kv.2)) <$> d) k
  = match PyDict.getitem d k with inr v => inr (f v) | inl e => inl e end.
Proof.
  induction d as [|[k0 v0] d IH]; cbn; [done|].
  by destruct (decide (k0 = k)).
Qed.

Lemma keys_fmap {W} (f : V -> W) d :
  PyDict.keys ((fun kv => (kv.1, f kv.2)) <$> d) = PyDict.keys d.
Proof.
  unfold PyDict.keys. induction d as [|[k0 v0] d IH]; cbn; [done|].
  by rewrite IH.
Qed.

End DictFacts.

(** ** Series and frames *)

Lemma reindex_lookup (s : gmap Z cell) (index : gset Z) (d : Z) :
  reindex s index !! d
  = if decide (d ∈ index) then Some (default NaN (s !! d)) else None.
Proof.
  unfold reindex. case_decide as Hin.
  - apply lookup_set_to_map; [by intros ???? [= ->]|]. by exists d.
  - apply eq_None_not_Some. intros [x Hx].
    apply lookup_set_to_map in Hx as (d' & Hd' & [= -> _]); [done|].
    by intros ???? [= ->].
Qed.

Lemma dom_reindex (s : gmap Z cell) (index : gset Z) :
  dom (reindex s index) = index.
Proof.
  apply set_eq. intros d. rewrite elem_of_dom, reindex_lookup.
  case_decide; [by split; eauto|]. split; [by intros [? [=]]|done].
Qed.

Lemma reindex_dom (s : gmap Z cell) : reindex s (dom s) = s.
Proof.
  apply map_eq. intros d. rewrite reindex_lookup. case_decide as Hin.
  - apply elem_of_dom in Hin as [x Hx]. by rewrite Hx.
  - symmetry. by apply not_elem_of_dom.
Qed.

Lemma df_getitem_index (df : DataFrame) (col : string) (s : gmap Z cell) :
  wf_frame df -> df_getitem df col = inr s -> dom s = df_index df.
Proof.
  unfold wf_frame, df_getitem. generalize (df_index df) as index.
  intros index. induction 1 as [|[k0 s0] columns Hdom _ IH]; cbn; [done|].
  case_decide; [by intros [= <-]|done].
Qed.

Lemma DataFrame_of_dict_wf (data : list (string * gmap Z cell)) :
  wf_frame (DataFrame_of_dict data).
Proof.
  unfold wf_frame, DataFrame_of_dict. cbn [df_index df_columns].
  apply Forall_fmap, Forall_forall. intros [k s] _. cbn. apply dom_reindex.
Qed.

Lemma cell_mul_NaN_r (x : cell) : cell_mul x NaN = NaN.
Proof. by destruct x. Qed.

Lemma series_mul_lookup (a b : gmap Z cell) (d : Z) :
  series_mul a b !! d
  = if decide (d ∈ dom a ∪ dom b)
    then Some (cell_mul (default NaN (a !! d)) (default NaN (b !! d)))
    else None.
Proof.
  unfold series_mul. rewrite map_lookup_zip_with, !reindex_lookup.
  by case_decide.
Qed.

Lemma elem_of_union_indexes (ss : list (gmap Z cell)) (d : Z) :
  d ∈ union_indexes ss <-> exists s, s ∈ ss /\ d ∈ dom s.
Proof.
  unfold union_indexes. rewrite elem_of_union_list. split.
  - intros (X & [s [-> Hs]]%list_elem_of_fmap & Hd). eauto.
  - intros (s & Hs & Hd). exists (dom s). split; [|done].
    apply list_elem_of_fmap. eauto.
Qed.

(** ** The series merger *)

Section MergeFacts.

Implicit Types (dataframes : list DataFrame) (labels : list string)
  (col : string) (series : list (gmap Z cell))
  (acc : list (string * gmap Z cell)).

Lemma merge_loop_walk dataframes labels col n k acc :
  (k + n)%nat = length dataframes ->
  merge_loop dataframes labels col (seq k n) acc
  = merge_walk (drop k dataframes) (drop k labels) col acc.
Proof.
  revert k acc. induction n as [|n IH]; intros k acc Hlen.
  - rewrite drop_ge by lia. done.
  - cbn [seq merge_loop]. unfold list_getitem.
    destruct (lookup_lt_is_Some_2 dataframes k) as [df Hdf]; [lia|].
    rewrite Hdf, (drop_S _ _ _ Hdf). cbn [rbind merge_walk].
    destruct (df_getitem df col) as [e|s]; [done|]. cbn [rbind].
    destruct (labels !! k) as [label|] eqn:Hlabel.
    + rewrite (drop_S _ _ _ Hlabel). cbn [rbind]. apply IH. lia.
    + apply lookup_ge_None in Hlabel. by rewrite (drop_ge labels) by lia.
Qed.

Lemma merge_dfs_on_column_walk dataframes labels col :
  merge_dfs_on_column dataframes labels col
  = match merge_walk dataframes labels col [] with
    | inr series_dict => inr (DataFrame_of_dict series_dict)
    | inl e => inl e
    end.
Proof.
  unfold merge_dfs_on_column.
  by rewrite (merge_loop_walk _ _ _ (length dataframes) 0 []).
Qed.

(** A frame without the column stops the walk. *)
Lemma merge_walk_missing dataframes labels col acc :
  Exists (fun df => col ∉ df_labels df) dataframes ->
  exists e, merge_walk dataframes labels col acc = inl e
    /\ (length dataframes <= length labels -> e = KeyError col)%nat.
Proof.
  intros Hex. revert labels acc.
  induction dataframes as [|df dataframes IH]; intros labels acc.
  { by apply Exists_nil in Hex. }
  cbn [merge_walk]. unfold df_getitem.
  destruct (PyDict.getitem (df_columns df) col) as [e|s] eqn:Hget; cbn [rbind].
  - apply getitem_raises in Hget as [-> _]. eauto.
  - apply Exists_cons in Hex as [Hhere|Hlater].
    { by rewrite (getitem_missing _ _ Hhere) in Hget. }
    destruct labels as [|label labels].
    + exists IndexError. split; [done|]. cbn. lia.
    + destruct (IH Hlater labels (PyDict.setitem label s acc)) as (e & -> & He).
      exists e. split; [done|]. cbn. intros ?. apply He. lia.
Qed.

(** With the column in every frame and a fresh label for each, the walk
    appends one entry per frame. *)
Lemma merge_walk_distinct dataframes labels col series acc :
  Forall2 (fun df s => df_getitem df col = inr s) dataframes series ->
  length labels = length dataframes ->
  NoDup (PyDict.keys acc ++ labels) ->
  merge_walk dataframes labels col acc = inr (acc ++ zip labels series).
Proof.
  intros Hcols. revert labels acc.
  induction Hcols as [|df s dataframes series Hget _ IH]; intros labels acc Hlen Hnd.
  - destruct labels; [|done]. cbn. by rewrite app_nil_r.
  - destruct labels as [|label labels]; [done|].
    cbn [merge_walk]. rewrite Hget. cbn [rbind zip zip_with].
    assert (label ∉ PyDict.keys acc) as Hfresh.
    { apply NoDup_app in Hnd as (_ & Hdisj & _). intros Hin.
      apply (Hdisj _ Hin). by left. }
    rewrite (setitem_fresh _ _ _ Hfresh), IH.
    + by rewrite <- app_assoc.
    + cbn in Hlen. lia.
    + unfold PyDict.keys in *. rewrite fmap_app. cbn.
      by rewrite <- app_assoc.
Qed.

(** The keys of the dictionary the walk builds. *)
Lemma keys_merge_walk dataframes labels col acc series_dict :
  merge_walk dataframes labels col acc = inr series_dict ->
  PyDict.keys series_dict
  = PyDict.keys acc
    ++ filter (fun l => l ∉ PyDict.keys acc)
         (first_occurrences (take (length dataframes) labels)).
Proof.
  revert labels acc.
  induction dataframes as [|df dataframes IH]; intros labels acc.
  - cbn. intros [= <-]. by rewrite app_nil_r.
  - cbn [merge_walk].
    destruct (df_getitem df col) as [e|s]; cbn [rbind]; [done|].
    destruct labels as [|label labels]; [done|].
    intros Hwalk. rewrite (IH _ _ Hwalk), keys_setitem.
    cbn [length take first_occurrences]. rewrite filter_cons.
    rewrite list_filter_filter.
    destruct (decide (label ∈ PyDict.keys acc)) as [Hin|Hnin].
    + rewrite decide_False by (intros Hn; exact (Hn Hin)). f_equal.
      apply list_filter_iff. intros l. split; [|by intros [? _]].
      intros Hl. split; [done|]. by intros ->.
    + rewrite decide_True by done. rewrite <- app_assoc. cbn. do 2 f_equal.
      apply list_filter_iff. intros l. rewrite not_elem_of_app.
      rewrite list_elem_of_singleton. tauto.
Qed.

Lemma filter_all {A} (P : A -> Prop) `{!forall x, Decision (P x)} (l : list A) :
  Forall P l -> filter P l = l.
Proof.
  induction 1 as [|x l HP _ IH]; [done|].
  by rewrite filter_cons_True, IH.
Qed.

Lemma first_occurrences_NoDup labels :
  NoDup labels -> first_occurrences labels = labels.
Proof.
  induction 1 as [|l labels Hnin _ IH]; [done|].
  cbn. rewrite IH. f_equal. apply filter_all.
  apply Forall_forall. by intros l' Hl' ->.
Qed.

(** C2, as amended: when the field is missing from one of the frames,
    [merge_dfs_on_column] raises and returns no table.  With a label for
    every frame the exception is the [KeyError] of the missing field; no
    column of unset values is made. *)
Theorem merge_missing_field_raises dataframes labels col :
  Exists (fun df => col ∉ df_labels df) dataframes ->
  exists e,
    merge_dfs_on_column dataframes labels col = inl e
    /\ (length dataframes <= length labels -> e = KeyError col)%nat.
Proof.
  intros Hex. rewrite merge_dfs_on_column_walk.
  destruct (merge_walk_missing dataframes labels col [] Hex) as (e & -> & He).
  eauto.
Qed.

(** With the field in every frame and one fresh label per frame, the
    merged table is the frame of the labelled Series. *)
Lemma merge_dfs_on_column_distinct dataframes labels col series :
  Forall2 (fun df s => df_getitem df col = inr s) dataframes series ->
  length labels = length dataframes ->
  NoDup labels ->
  merge_dfs_on_column dataframes labels col
  = inr (DataFrame_of_dict (zip labels series)).
Proof.
  intros Hcols Hlen Hnd. rewrite merge_dfs_on_column_walk.
  by rewrite (merge_walk_distinct _ _ _ _ [] Hcols Hlen).
Qed.

Lemma DataFrame_of_dict_rows labels series (d : Z) :
  (length series <= length labels)%nat ->
  d ∈ df_index (DataFrame_of_dict (zip labels series))
  <-> exists i s, series !! i = Some s /\ d ∈ dom s.
Proof.
  intros Hlen. unfold DataFrame_of_dict, PyDict.values. cbn [df_index].
  rewrite snd_zip by done. rewrite elem_of_union_indexes. split.
  - intros (s & [i Hi]%list_elem_of_lookup_1 & Hd). eauto.
  - intros (i & s & Hi & Hd). exists s. split; [|done].
    by eapply list_elem_of_lookup_2.
Qed.

Lemma DataFrame_of_dict_cell labels series j label s (d : Z) :
  NoDup labels -> length labels = length series ->
  labels !! j = Some label -> series !! j = Some s ->
  d ∈ df_index (DataFrame_of_dict (zip labels series)) ->
  df_cell (DataFrame_of_dict (zip labels series)) label d
  = Some (default NaN (s !! d)).
Proof.
  intros Hnd Hlen Hlabel Hs Hd.
  unfold df_cell, df_getitem, DataFrame_of_dict in *.
  cbn [df_columns df_index] in *.
  set (index := union_indexes _) in *.
  rewrite (getitem_fmap (fun s0 => reindex s0 index)).
  rewrite (getitem_lookup (zip labels series) j label s).
  - rewrite reindex_lookup. by rewrite decide_True.
  - unfold PyDict.keys. by rewrite fst_zip by lia.
  - by apply lookup_zip_Some.
Qed.

(** For well-formed frames the rows of the merged table are the rows of
    the inputs taken together. *)
Lemma merge_rows_of_frames dataframes labels col series t :
  Forall wf_frame dataframes ->
  Forall2 (fun df s => df_getitem df col = inr s) dataframes series ->
  length labels = length dataframes ->
  NoDup labels ->
  merge_dfs_on_column dataframes labels col = inr t ->
  forall d, d ∈ df_index t <-> exists df, df ∈ dataframes /\ d ∈ df_index df.
Proof.
  intros Hwf Hcols Hlen Hnd.
  rewrite (merge_dfs_on_column_distinct _ _ _ _ Hcols Hlen Hnd).
  intros [= <-] d.
  pose proof (Forall2_length _ _ _ Hcols) as Hlen'.
  rewrite DataFrame_of_dict_rows by lia. split.
  - intros (i & s & Hi & Hd).
    destruct (Forall2_lookup_r _ _ _ _ _ Hcols Hi) as (df & Hdf & Hget).
    exists df. split; [by eapply list_elem_of_lookup_2|].
    rewrite <- (df_getitem_index df col s); [done| |done].
    rewrite Forall_forall in Hwf. apply Hwf. by eapply list_elem_of_lookup_2.
  - intros (df & [i Hi]%list_elem_of_lookup_1 & Hd).
    destruct (Forall2_lookup_l _ _ _ _ _ Hcols Hi) as (s & Hs & Hget).
    exists i, s. split; [done|].
    rewrite (df_getitem_index df col s); [done| |done].
    rewrite Forall_forall in Hwf. apply Hwf. by eapply list_elem_of_lookup_2.
Qed.

(** C5, as amended: for frames that all have the field, with one label per
    frame and no label repeated, the merge returns a table whose rows are
    exactly the dates of the inputs taken together (the dates of the
    extracted Series, which for well-formed frames are the rows of the
    frames).  The cell of an input's column at a row is the input's cell at
    that date, and unset (NaN, not zero) where the input has no such date;
    so at a date that only one input has, every other column is unset. *)
Theorem merge_completeness dataframes labels col series :
  Forall2 (fun df s => df_getitem df col = inr s) dataframes series ->
  length labels = length dataframes ->
  NoDup labels ->
  exists t,
    merge_dfs_on_column dataframes labels col = inr t
    /\ (forall d, d ∈ df_index t <-> exists i s, series !! i = Some s /\ d ∈ dom s)
    /\ (Forall wf_frame dataframes ->
        forall d, d ∈ df_index t <-> exists df, df ∈ dataframes /\ d ∈ df_index df)
    /\ (forall j label s d,
          labels !! j = Some label -> series !! j = Some s -> d ∈ df_index t ->
          df_cell t label d = Some (default NaN (s !! d)))
    /\ (forall i s_i d,
          series !! i = Some s_i -> d ∈ dom s_i ->
          (forall j s_j, j ≠ i -> series !! j = Some s_j -> d ∉ dom s_j) ->
          forall j label, j ≠ i -> labels !! j = Some label ->
          df_cell t label d = Some NaN).
Proof.
  intros Hcols Hlen Hnd.
  pose proof (Forall2_length _ _ _ Hcols) as Hlen'.
  pose proof (merge_dfs_on_column_distinct _ _ _ _ Hcols Hlen Hnd) as Hrun.
  exists (DataFrame_of_dict (zip labels series)).
  split; [exact Hrun|].
  split; [intros d; apply DataFrame_of_dict_rows; lia|].
  split; [intros Hwf; by eapply merge_rows_of_frames|].
  split; [intros j label s d; apply DataFrame_of_dict_cell; [done|lia]|].
  intros i s_i d Hi Hd Honly j label Hji Hlabel.
  destruct (lookup_lt_is_Some_2 series j) as [s_j Hj].
  { apply lookup_lt_Some in Hlabel. lia. }
  rewrite (DataFrame_of_dict_cell labels series j label s_j d);
    [|done|lia|done|done|].
  - by rewrite (not_elem_of_dom_1 _ _ (Honly j s_j Hji Hj)).
  - apply DataFrame_of_dict_rows; [lia|]. eauto.
Qed.

(** C6: the columns of the returned table are the labels in the order of
    the [labels] argument, each at the place of its first occurrence; with
    one label per frame and none repeated they are the labels as given.
    Neither the dates nor the spelling of the labels has a say. *)
Theorem merge_column_order dataframes labels col t :
  merge_dfs_on_column dataframes labels col = inr t ->
  df_labels t = first_occurrences (take (length dataframes) labels)
  /\ (NoDup labels -> length labels = length dataframes -> df_labels t = labels).
Proof.
  rewrite merge_dfs_on_column_walk.
  destruct (merge_walk dataframes labels col []) as [e|series_dict] eqn:Hwalk;
    [done|].
  intros [= <-].
  assert (df_labels (DataFrame_of_dict series_dict)
          = first_occurrences (take (length dataframes) labels)) as Hkeys.
  { unfold df_labels, DataFrame_of_dict, PyDict.keys. cbn [df_columns].
    set (index := union_indexes _).
    change (PyDict.keys ((fun kv => (kv.1, (fun s => reindex s index) kv.2))
                           <$> series_dict) = first_occurrences (take (length dataframes) labels)).
    rewrite keys_fmap.
    rewrite (keys_merge_walk _ _ _ _ _ Hwalk). cbn [PyDict.keys fmap list_fmap app].
    apply filter_all, Forall_forall. intros l _. apply not_elem_of_nil. }
  split; [done|]. intros Hnd Hlen.
  by rewrite Hkeys, <- Hlen, firstn_all, first_occurrences_NoDup.
Qed.

(** C7: merging no frame at all does not fail; the result is the empty
    table, without rows and without columns.  The labels are not read, so
    this holds for the empty list of labels in particular. *)
Theorem merge_nothing labels col :
  merge_dfs_on_column [] labels col = inr (mkDataFrame ∅ [])
  /\ merge_dfs_on_column [] [] col = inr (mkDataFrame ∅ []).
Proof. split; reflexivity. Qed.

End MergeFacts.

(** ** Conversion to USD *)

Lemma getitem_present {V} (d : list (string * V)) (k : string) :
  k ∈ PyDict.keys d <-> exists v, PyDict.getitem d k = inr v.
Proof.
  split.
  - intros Hin. destruct (PyDict.getitem d k) as [e|v] eqn:Hget; [|eauto].
    by apply getitem_raises in Hget as [_ ?].
  - intros [v Hget]. destruct (decide (k ∈ PyDict.keys d)) as [|Hnin]; [done|].
    by rewrite (getitem_missing _ _ Hnin) in Hget.
Qed.

Lemma df_index_setitem (df : DataFrame) (col : string) (s : gmap Z cell) :
  df_index df ⊆ df_index (df_setitem df col s).
Proof.
  unfold df_setitem. cbn [df_index]. case_decide as Hempty; [|done].
  rewrite Hempty. apply empty_subseteq.
Qed.

Lemma df_getitem_setitem (df : DataFrame) (col : string) (s : gmap Z cell) :
  df_getitem (df_setitem df col s) col
  = inr (reindex s (df_index (df_setitem df col s))).
Proof.
  unfold df_getitem, df_setitem. cbn [df_columns df_index].
  rewrite getitem_setitem. by rewrite decide_True.
Qed.

Lemma df_labels_setitem (df : DataFrame) (col col' : string) (s : gmap Z cell) :
  col' ∈ df_labels df -> col' ∈ df_labels (df_setitem df col s).
Proof.
  unfold df_labels, df_setitem. cbn [df_columns]. intros Hin.
  rewrite keys_setitem.
  destruct (decide (df_index df = ∅)) as [Hempty|Hne];
    [rewrite (keys_fmap (fun s0 => reindex s0 (dom s)))|];
    (case_decide; [done|apply elem_of_app; by left]).
Qed.

Section ConversionFacts.

Variable btc_usd_datasets : DataFrame.
Variable btc_price : gmap Z cell.
Hypothesis Hbtc :
  df_getitem btc_usd_datasets "avg_btc_price_usd" = inr btc_price.

Lemma price_usd_column_unset (df : DataFrame) (rate : gmap Z cell) :
  unset_off_index btc_price
    (df_setitem df "price_usd" (series_mul rate btc_price)).
Proof.
  intros d Hrow Hoff. unfold df_cell.
  rewrite df_getitem_setitem, reindex_lookup, decide_True by done.
  rewrite series_mul_lookup. f_equal.
  case_decide; [|done]. cbn.
  by rewrite (not_elem_of_dom_1 _ _ Hoff), cell_mul_NaN_r.
Qed.

Lemma price_usd_step_returns (altcoin : string)
    (altcoin_data : list (string * DataFrame)) (df : DataFrame) :
  PyDict.getitem altcoin_data altcoin = inr df ->
  "weightedAverage" ∈ df_labels df ->
  exists rate,
    df_getitem df "weightedAverage" = inr rate
    /\ price_usd_step btc_usd_datasets altcoin altcoin_data
       = inr (PyDict.setitem altcoin
                (df_setitem df "price_usd" (series_mul rate btc_price))
                altcoin_data).
Proof.
  intros Hdf [rate Hrate]%getitem_present. exists rate. split; [done|].
  unfold price_usd_step. rewrite Hdf. cbn [rbind].
  unfold df_getitem at 1. rewrite Hrate. cbn [rbind]. by rewrite Hbtc.
Qed.

Lemma price_usd_loop_returns (keys : list string)
    (altcoin_data : list (string * DataFrame)) :
  (forall k, k ∈ keys -> k ∈ PyDict.keys altcoin_data) ->
  (forall k df, PyDict.getitem altcoin_data k = inr df ->
                "weightedAverage" ∈ df_labels df) ->
  exists altcoin_data',
    price_usd_loop btc_usd_datasets keys altcoin_data = (inr tt, altcoin_data')
    /\ forall k df, PyDict.getitem altcoin_data k = inr df ->
       exists df',
         PyDict.getitem altcoin_data' k = inr df'
         /\ df_index df ⊆ df_index df'
         /\ (k ∈ keys \/ unset_off_index btc_price df ->
             unset_off_index btc_price df').
Proof.
  revert altcoin_data.
  induction keys as [|k0 keys IH]; intros altcoin_data Hkeys Hrates.
  { exists altcoin_data. split; [done|]. intros k df Hget. exists df.
    split; [done|]. split; [done|]. intros [Hin|?]; [|done].
    by apply elem_of_nil in Hin. }
  destruct (proj1 (getitem_present altcoin_data k0)) as [df0 Hdf0].
  { apply Hkeys. by left. }
  destruct (price_usd_step_returns k0 altcoin_data df0 Hdf0 (Hrates _ _ Hdf0))
    as (rate & Hrate & Hstep).
  cbn [price_usd_loop]. rewrite Hstep.
  set (df0' := df_setitem df0 "price_usd" (series_mul rate btc_price)) in *.
  destruct (IH (PyDict.setitem k0 df0' altcoin_data)) as (altcoin_data' & Hloop & Hinv).
  { intros k Hk. rewrite keys_setitem, decide_True.
    - apply Hkeys. by right.
    - apply Hkeys. by left. }
  { intros k df. rewrite getitem_setitem. case_decide as Hk.
    - intros [= <-]. apply df_labels_setitem. by eapply Hrates.
    - apply Hrates. }
  exists altcoin_data'. split; [done|]. intros k df Hget.
  destruct (decide (k0 = k)) as [<-|Hne].
  - assert (df = df0) as -> by congruence.
    destruct (Hinv k0 df0') as (df' & Hget' & Hsub & Hunset).
    { rewrite getitem_setitem. by rewrite decide_True. }
    exists df'. split; [done|]. split.
    + etrans; [apply df_index_setitem|exact Hsub].
    + intros _. apply Hunset. right. apply price_usd_column_unset.
  - destruct (Hinv k df) as (df' & Hget' & Hsub & Hunset).
    { rewrite getitem_setitem. by rewrite decide_False. }
    exists df'. split; [done|]. split; [done|].
    intros [[?|Hin]%elem_of_cons|Hdf]; [congruence|..]; apply Hunset; auto.
Qed.

End ConversionFacts.

(** C8: when the index frame has its [avg_btc_price_usd] column and every
    altcoin frame its [weightedAverage] column, the conversion loop runs
    to its end without an exception.  Every altcoin frame keeps its rows,
    and in each of them a row whose date the index series lacks has an
    unset [price_usd] (NaN, not zero). *)
Theorem price_usd_unset_off_index (btc_usd_datasets : DataFrame)
    (btc_price : gmap Z cell) (altcoin_data : list (string * DataFrame)) :
  df_getitem btc_usd_datasets "avg_btc_price_usd" = inr btc_price ->
  Forall (fun df => "weightedAverage" ∈ df_labels df)
         (PyDict.values altcoin_data) ->
  exists altcoin_data',
    convert_prices_to_usd btc_usd_datasets altcoin_data = (inr tt, altcoin_data')
    /\ forall altcoin df, PyDict.getitem altcoin_data altcoin = inr df ->
       exists df',
         PyDict.getitem altcoin_data' altcoin = inr df'
         /\ df_index df ⊆ df_index df'
         /\ forall d, d ∈ df_index df' -> d ∉ dom btc_price ->
            df_cell df' "price_usd" d = Some NaN.
Proof.
  intros Hbtc Hrates. unfold convert_prices_to_usd.
  assert (forall k df, PyDict.getitem altcoin_data k = inr df ->
                       df ∈ PyDict.values altcoin_data) as Hvalues.
  { unfold PyDict.values. clear. intros k df.
    induction altcoin_data as [|[k0 v0] d IH]; cbn; [done|].
    case_decide; [intros [= ->]; by left|]. intros ?. right. auto. }
  destruct (price_usd_loop_returns btc_usd_datasets btc_price Hbtc
              (PyDict.keys altcoin_data) altcoin_data)
    as (altcoin_data' & Hloop & Hinv); [done|..].
  { intros k df Hget. rewrite Forall_forall in Hrates. eauto. }
  exists altcoin_data'. split; [done|]. intros altcoin df Hget.
  destruct (Hinv altcoin df Hget) as (df' & Hget' & Hsub & Hunset).
  exists df'. split; [done|]. split; [done|].
  apply Hunset. left. apply getitem_present. eauto.
Qed.

(** ** The properties on the sample data *)

(** C1, witness: the Kraken dataset fetched twice into an empty cache. *)
Lemma fetch_twice_one_request_witness :
  exists w1 w2,
    get_quandl_data Sample.quandl "BCHARTS/KRAKENUSD" Sample.cold
      = (inr Sample.kraken_table, w1)
    /\ get_quandl_data Sample.quandl "BCHARTS/KRAKENUSD" w1
      = (inr Sample.kraken_table, w2)
    /\ files w1 !! "data/BCHARTS-KRAKENUSD.pkl"
      = Some (dumps Sample.kraken_table)
    /\ requests w1 = ["BCHARTS/KRAKENUSD"]
    /\ requests w2 = requests w1
    /\ files w2 = files w1.
Proof.
  apply (fetch_twice_one_request Sample.quandl Sample.poloniex
           (QuandlCall "BCHARTS/KRAKENUSD") Sample.cold Sample.kraken_table);
    reflexivity.
Defined.

(** C1, counterexample: as stated, two calls would always send exactly one
    request and the first would store the table.  With the table already
    cached both calls return it and no request is sent; with a dataset
    the provider does not know, the first call returns no table; and with
    a file name that points into a directory that does not exist, the
    download cannot be stored: each call sends its request and raises. *)
Lemma fetch_twice_zero_or_two_requests :
  (writable Sample.warm = true
   /\ exists w1 w2,
        get_quandl_data Sample.quandl "BCHARTS/KRAKENUSD" Sample.warm
          = (inr Sample.kraken_table, w1)
        /\ get_quandl_data Sample.quandl "BCHARTS/KRAKENUSD" w1
          = (inr Sample.kraken_table, w2)
        /\ requests w2 = requests Sample.warm
        /\ length (requests w2) ≠ S (length (requests Sample.warm)))
  /\ (writable Sample.cold = true
      /\ exists w1 w2,
           get_quandl_data Sample.quandl "BCHARTS/NONE" Sample.cold
             = (inl (ValueError "unknown dataset"), w1)
           /\ get_quandl_data Sample.quandl "BCHARTS/NONE" w1
             = (inl (ValueError "unknown dataset"), w2)
           /\ requests w2 = ["BCHARTS/NONE"; "BCHARTS/NONE"]
           /\ files w2 = ∅)
  /\ (writable Sample.cold = true
      /\ Sample.poloniex "https://poloniex.com/public?currencyPair=BTC_ETH"
         = inr [Byte.x45]
      /\ exists w1 w2,
           get_json_data Sample.poloniex
             "https://poloniex.com/public?currencyPair=BTC_ETH" "BTC/ETH"
             Sample.cold
             = (inl (FileNotFoundError "data/BTC/ETH.pkl"), w1)
           /\ get_json_data Sample.poloniex
                "https://poloniex.com/public?currencyPair=BTC_ETH" "BTC/ETH" w1
             = (inl (FileNotFoundError "data/BTC/ETH.pkl"), w2)
           /\ requests w2
             = ["https://poloniex.com/public?currencyPair=BTC_ETH";
                "https://poloniex.com/public?currencyPair=BTC_ETH"]
           /\ files w2 = ∅).
Proof.
  split; [|split].
  - split; [reflexivity|]. eexists _, _.
    split; [vm_compute; reflexivity|].
    split; [vm_compute; reflexivity|]. split; [reflexivity|]. cbn. lia.
  - split; [reflexivity|]. eexists _, _.
    split; [vm_compute; reflexivity|].
    split; [vm_compute; reflexivity|]. split; reflexivity.
  - split; [reflexivity|]. split; [reflexivity|]. eexists _, _.
    split; [vm_compute; reflexivity|].
    split; [vm_compute; reflexivity|]. split; reflexivity.
Qed.

(** C3, witness: a cache file that holds a single zero byte. *)
Lemma unreadable_cache_entry_witness :
  get_quandl_data Sample.quandl "BCHARTS/KRAKENUSD" Sample.corrupt
  = (inl UnpicklingError, Sample.corrupt).
Proof.
  apply (unreadable_cache_entry Sample.quandl Sample.poloniex
           (QuandlCall "BCHARTS/KRAKENUSD") Sample.corrupt [Byte.x00]
           UnpicklingError); reflexivity.
Defined.

(** C3, counterexample: the cache file is there and unpickling it fails,
    yet the call does not turn to the provider: it raises, the request log
    stays empty and the broken file stays in place. *)
Lemma corrupt_cache_entry_propagates :
  writable Sample.corrupt = true
  /\ files Sample.corrupt !! quandl_cache_path "BCHARTS/KRAKENUSD"
    = Some [Byte.x00]
  /\ loads (T := list Byte.byte) [Byte.x00] = inl UnpicklingError
  /\ Sample.quandl "BCHARTS/KRAKENUSD" = inr Sample.kraken_table
  /\ exists w',
       get_quandl_data Sample.quandl "BCHARTS/KRAKENUSD" Sample.corrupt
         = (inl UnpicklingError, w')
       /\ requests w' = []
       /\ files w' !! quandl_cache_path "BCHARTS/KRAKENUSD" = Some [Byte.x00].
Proof.
  repeat split; try reflexivity.
  eexists. split; [vm_compute; reflexivity|]. split; reflexivity.
Qed.

(** C4, counterexample: [get_json_data] keeps the ['/'] of a file name, so
    its cache file is not the one the replacement would give, and it lies
    below the cache directory, not in it. *)
Lemma json_cache_path_keeps_slash :
  json_cache_path "BTC/ETH" = "data/BTC/ETH.pkl"
  /\ json_cache_path "BTC/ETH"
     ≠ data_dir +:+ Py.replace "/" "-" "BTC/ETH" +:+ ".pkl"
  /\ "/"%char ∈ Py.chars ("BTC/ETH" +:+ ".pkl").
Proof.
  split; [reflexivity|]. split; [by vm_compute|].
  vm_compute. do 3 apply list_elem_of_further. apply list_elem_of_here.
Qed.

(** Two Quandl identifiers that differ in ['/'] and ['-'] only share their
    cache file. *)
Lemma quandl_cache_path_shared :
  quandl_cache_path "BCHARTS/KRAKENUSD" = quandl_cache_path "BCHARTS-KRAKENUSD".
Proof. by vm_compute. Qed.


(** C2, witness: the second frame has no price column. *)
Lemma merge_missing_field_raises_witness :
  exists e,
    merge_dfs_on_column [Sample.kraken; Sample.bare] ["KRAKEN"; "BARE"]
      "Weighted Price" = inl e
    /\ ((2 <= 2)%nat -> e = KeyError "Weighted Price").
Proof.
  apply (merge_missing_field_raises [Sample.kraken; Sample.bare]
           ["KRAKEN"; "BARE"] "Weighted Price").
  apply Exists_cons_tl, Exists_cons_hd.
  intros Hin. apply list_elem_of_singleton in Hin. discriminate Hin.
Defined.

(** C2, counterexample: as stated, the merge would return a table with an
    unset column for the frame without the field.  It raises instead. *)
Lemma merge_missing_field_example :
  df_getitem Sample.bare "Weighted Price" = inl (KeyError "Weighted Price")
  /\ merge_dfs_on_column [Sample.kraken; Sample.bare] ["KRAKEN"; "BARE"]
       "Weighted Price" = inl (KeyError "Weighted Price").
Proof. split; reflexivity. Qed.

(** C5, witness: Kraken and itBit share day 2 only; day 3 is Kraken's
    alone and day 1 itBit's alone. *)
Lemma merge_completeness_witness :
  exists t,
    merge_dfs_on_column [Sample.kraken; Sample.itbit] ["KRAKEN"; "ITBIT"]
      "Weighted Price" = inr t
    /\ (forall d, d ∈ df_index t <-> d = 1 \/ d = 2 \/ d = 3)
    /\ df_cell t "ITBIT" 3 = Some NaN
    /\ df_cell t "KRAKEN" 1 = Some NaN
    /\ df_cell t "KRAKEN" 3 = Some (Num 30).
Proof.
  pose (s1 := {[2 := Num 20; 3 := Num 30]} : gmap Z cell).
  pose (s2 := {[1 := Num 11; 2 := Num 21]} : gmap Z cell).
  assert (forall d, d ∈ dom s1 <-> d = 2 \/ d = 3) as Hs1.
  { intros d. unfold s1. rewrite dom_insert, dom_singleton.
    rewrite elem_of_union, !elem_of_singleton. tauto. }
  assert (forall d, d ∈ dom s2 <-> d = 1 \/ d = 2) as Hs2.
  { intros d. unfold s2. rewrite dom_insert, dom_singleton.
    rewrite elem_of_union, !elem_of_singleton. tauto. }
  destruct (merge_completeness [Sample.kraken; Sample.itbit]
              ["KRAKEN"; "ITBIT"] "Weighted Price" [s1; s2])
    as (t & Hrun & _ & Hrows & Hcell & Honly).
  - repeat constructor.
  - reflexivity.
  - apply (bool_decide_unpack _). by vm_compute.
  - exists t. split; [exact Hrun|].
    assert (forall d, d ∈ df_index t <-> d = 1 \/ d = 2 \/ d = 3) as Hdays.
    { intros d. rewrite Hrows.
      - split.
        + intros (df & Hdf & Hd).
          apply elem_of_cons in Hdf as [->|Hdf];
            [|apply list_elem_of_singleton in Hdf as ->];
            cbn [df_index Sample.kraken Sample.itbit] in Hd;
            apply elem_of_union in Hd as [Hd|Hd];
            apply elem_of_singleton in Hd; auto.
        + intros [-> | [-> | ->]];
            [exists Sample.itbit|exists Sample.kraken|exists Sample.kraken];
            (split; [repeat constructor|]);
            cbn [df_index Sample.kraken Sample.itbit];
            apply elem_of_union; rewrite !elem_of_singleton; auto.
      - repeat constructor. }
    split; [exact Hdays|]. split; [|split].
    + apply (Honly 0%nat s1 3) with (j := 1%nat);
        [reflexivity|apply Hs1; auto| |done|reflexivity].
      intros [|[|j]] s_j Hj Hs; cbn in Hs; [done| |done].
      injection Hs as <-. rewrite Hs2. lia.
    + apply (Honly 1%nat s2 1) with (j := 0%nat);
        [reflexivity|apply Hs2; auto| |done|reflexivity].
      intros [|[|j]] s_j Hj Hs; cbn in Hs; [|done|done].
      injection Hs as <-. rewrite Hs1. lia.
    + rewrite (Hcell 0%nat "KRAKEN" s1 3); [reflexivity..|]. apply Hdays. auto.
Defined.

(** C5, counterexample: as stated the labels are free.  With the same
    label for both frames the second Series takes the place of the first
    in the dictionary, and day 3, a date of the first input, is no row of
    the merged table. *)
Lemma merge_repeated_label :
  df_getitem Sample.kraken "Weighted Price"
    = inr ({[2 := Num 20; 3 := Num 30]} : gmap Z cell)
  /\ 3 ∈ df_index Sample.kraken
  /\ exists t,
       merge_dfs_on_column [Sample.kraken; Sample.itbit] ["BTC"; "BTC"]
         "Weighted Price" = inr t
       /\ df_labels t = ["BTC"]
       /\ 3 ∉ df_index t.
Proof.
  split; [reflexivity|]. split; [unfold Sample.kraken; set_solver|].
  eexists. split; [vm_compute; reflexivity|]. split; [reflexivity|].
  apply (bool_decide_unpack _). by vm_compute.
Qed.

(** C6, witness: Kraken before itBit, although itBit comes first both in
    the alphabet and by its dates. *)
Lemma merge_column_order_witness :
  exists t,
    merge_dfs_on_column [Sample.kraken; Sample.itbit] ["KRAKEN"; "ITBIT"]
      "Weighted Price" = inr t
    /\ df_labels t = ["KRAKEN"; "ITBIT"].
Proof.
  pose (t := DataFrame_of_dict
               [("KRAKEN", {[2 := Num 20; 3 := Num 30]} : gmap Z cell);
                ("ITBIT", {[1 := Num 11; 2 := Num 21]} : gmap Z cell)]).
  assert (merge_dfs_on_column [Sample.kraken; Sample.itbit] ["KRAKEN"; "ITBIT"]
            "Weighted Price" = inr t) as Hrun by reflexivity.
  exists t. split; [exact Hrun|].
  apply (merge_column_order _ _ _ _ Hrun);
    [apply (bool_decide_unpack _); by vm_compute|reflexivity].
Defined.

(** C8, witness: the altcoin frame has days 2 to 4, the index days 1 to 3;
    on day 4 the USD price is unset. *)
Lemma price_usd_unset_off_index_witness :
  exists altcoin_data' df',
    convert_prices_to_usd Sample.btc_index [("ETH", Sample.eth)]
      = (inr tt, altcoin_data')
    /\ PyDict.getitem altcoin_data' "ETH" = inr df'
    /\ 4 ∈ df_index df'
    /\ df_cell df' "price_usd" 4 = Some NaN.
Proof.
  pose (btc_price := {[1 := Num 100; 2 := Num 200; 3 := NaN]} : gmap Z cell).
  destruct (price_usd_unset_off_index Sample.btc_index btc_price
              [("ETH", Sample.eth)])
    as (altcoin_data' & Hrun & Hframes).
  - reflexivity.
  - constructor; [apply list_elem_of_here|constructor].
  - destruct (Hframes "ETH" Sample.eth) as (df' & Hget & Hrows & Hunset);
      [reflexivity|].
    exists altcoin_data', df'. split; [exact Hrun|]. split; [exact Hget|].
    assert (4 ∈ df_index df') as Hday.
    { apply Hrows. unfold Sample.eth. cbn [df_index]. set_solver. }
    split; [exact Hday|]. apply Hunset; [exact Hday|].
    apply not_elem_of_dom. reflexivity.
Defined.


(** * Further properties *)

(** ** The cached fetchers *)

Section FetcherMore.

Context {DF : Type} `{!Pickle DF}.
Variable quandl_response : string -> exn + DF.
Variable read_json_response : string -> exn + DF.

#[local] Abbreviation fetch := (fetch quandl_response read_json_response).
#[local] Abbreviation response := (response quandl_response read_json_response).
#[local] Abbreviation run_calls :=
  (run_calls quandl_response read_json_response).

Ltac run_fetch :=
  unfold get_quandl_data, get_json_data, quandl_download, json_download,
    try_except, bind, open_rb, pickle_load, print, ret, quandl_get,
    read_json, to_pickle; cbn.

(** A cache hit, with the world it leaves. *)
Lemma fetch_hit_full (c : fetch_call) (w : World)
    (content : list Byte.byte) (df : DF) :
  files w !! cache_path c = Some content ->
  loads content = inr df ->
  fetch c w
  = (inr df, mkWorld (files w) (writable w) (create_error w) (requests w)
                     (stdout w ++ [loaded_line c])).
Proof.
  intros Hsome Hload.
  destruct c; cbn [fetch cache_path loaded_line] in *; run_fetch;
    rewrite Hsome; cbn; by rewrite Hload.
Qed.

(** X1: a cache file that unpickles to a table is trusted.  The call
    returns that table whatever the provider would answer now; it sends no
    request, changes no file and prints the one line that names the
    cache. *)
Theorem cache_hit_is_trusted (c : fetch_call) (w : World)
    (content : list Byte.byte) (df : DF) :
  files w !! cache_path c = Some content ->
  loads content = inr df ->
  exists w',
    fetch c w = (inr df, w')
    /\ files w' = files w
    /\ requests w' = requests w
    /\ stdout w' = stdout w ++ [loaded_line c].
Proof.
  intros Hsome Hload. rewrite (fetch_hit_full c w content df Hsome Hload).
  by eexists.
Qed.


(** The only file a call can create or change is its cache file. *)
Lemma fetch_files (c : fetch_call) (w : World) :
  files (fetch c w).2 = files w
  \/ exists df, files (fetch c w).2 = <[cache_path c := dumps df]> (files w).
Proof.
  destruct (files w !! cache_path c) as [content|] eqn:Hfile.
  - destruct (loads content) as [e|df] eqn:Hload.
    + rewrite (fetch_load_raises quandl_response read_json_response
                 c w content e Hfile Hload).
      destruct (is_OSError e); [apply except_branch_files|by left].
    + destruct (fetch_hit quandl_response read_json_response
                  c w content df Hfile Hload) as (w' & -> & ? & _).
      by left.
  - rewrite (fetch_miss quandl_response read_json_response c w Hfile).
    apply except_branch_files.
Qed.

(** A call only ever adds to the request log, and leaves the directory as
    writable as it was. *)
Lemma fetch_requests (c : fetch_call) (w : World) :
  requests (fetch c w).2 = requests w
  \/ requests (fetch c w).2 = requests w ++ [request c].
Proof.
  assert (forall w0,
    requests (except_branch quandl_response read_json_response c w0).2
    = requests w0 ++ [request c]) as Hexc.
  { intros w0. destruct c; cbn [except_branch request]; run_fetch.
    - destruct (quandl_response quandl_id); cbn; [done|].
      destruct (create_error w0 _); [done|]. by destruct (writable w0).
    - destruct (read_json_response json_url); cbn; [done|].
      destruct (create_error w0 _); [done|]. by destruct (writable w0). }
  destruct (files w !! cache_path c) as [content|] eqn:Hfile.
  - destruct (loads content) as [e|df] eqn:Hload.
    + rewrite (fetch_load_raises quandl_response read_json_response
                 c w content e Hfile Hload).
      destruct (is_OSError e); [right; apply Hexc|by left].
    + destruct (fetch_hit quandl_response read_json_response
                  c w content df Hfile Hload) as (w' & -> & _ & _ & ?).
      by left.
  - rewrite (fetch_miss quandl_response read_json_response c w Hfile).
    right. apply Hexc.
Qed.

(** One call keeps every readable cache entry as it is. *)
Lemma fetch_keeps_cached (c : fetch_call) (w : World) (path : string)
    (content : list Byte.byte) (df : DF) :
  files w !! path = Some content -> loads content = inr df ->
  files (fetch c w).2 !! path = Some content.
Proof.
  intros Hfile Hload.
  destruct (decide (cache_path c = path)) as [Heq|Hne].
  - subst path. by rewrite (fetch_hit_full c w content df Hfile Hload).
  - destruct (fetch_files c w) as [->|[df' ->]]; [done|].
    by rewrite lookup_insert_ne.
Qed.

(** X3: a readable cache entry is never overwritten or removed.  After any
    sequence of calls of either fetcher, with any identifiers and whether
    the calls return or raise, the file still has the bytes it had. *)
Theorem readable_entry_survives (calls : list fetch_call) (w : World)
    (path : string) (content : list Byte.byte) (df : DF) :
  files w !! path = Some content ->
  loads content = inr df ->
  files (run_calls calls w) !! path = Some content.
Proof.
  revert w. induction calls as [|c calls IH]; intros w Hfile Hload; [done|].
  cbn. apply IH; [|done]. by eapply fetch_keeps_cached.
Qed.

(** X4: the fetchers never delete a file and never take a request back:
    after any sequence of calls every file that existed still exists, and
    the request log has only grown at its end. *)
Theorem calls_only_add (calls : list fetch_call) (w : World) :
  dom (files w) ⊆ dom (files (run_calls calls w))
  /\ requests w `prefix_of` requests (run_calls calls w).
Proof.
  revert w. induction calls as [|c calls IH]; intros w; [done|].
  cbn. destruct (IH (fetch c w).2) as [Hdom Hreq]. split.
  - etrans; [|exact Hdom].
    destruct (fetch_files c w) as [->|[df' ->]]; [done|].
    rewrite dom_insert. apply union_subseteq_r.
  - etrans; [|exact Hreq].
    destruct (fetch_requests c w) as [-> | ->]; [done|].
    by apply prefix_app_r.
Qed.

(** X5: two Quandl identifiers that differ only in ['/'] against ['-']
    share their cache file, so the second is answered with the table of
    the first: no request is sent for it, whatever the provider holds
    under the second identifier. *)
Theorem quandl_identifiers_collide (id1 id2 : string) (w : World) (df : DF) :
  Py.replace "/" "-" id1 = Py.replace "/" "-" id2 ->
  create_error w (quandl_cache_path id1) = None ->
  writable w = true ->
  files w !! quandl_cache_path id1 = None ->
  quandl_response id1 = inr df ->
  exists w1 w2,
    get_quandl_data quandl_response id1 w = (inr df, w1)
    /\ get_quandl_data quandl_response id2 w1 = (inr df, w2)
    /\ requests w2 = requests w ++ [id1].
Proof.
  intros Hsame Hpath Hw Hnone Hresp.
  destruct (except_branch_returns quandl_response read_json_response
              (QuandlCall id1) w df Hresp Hpath Hw)
    as (w1 & Hrun & Hf1 & Hw1 & Hr1).
  pose proof (fetch_miss quandl_response read_json_response
                (QuandlCall id1) w Hnone) as Hmiss.
  assert (files w1 !! cache_path (QuandlCall id2) = Some (dumps df)) as Hstored.
  { cbn [cache_path] in *. unfold quandl_cache_path in *.
    rewrite <- Hsame, Hf1. apply lookup_insert_eq. }
  pose proof (fetch_hit_full (QuandlCall id2) w1 (dumps df) df Hstored
                (loads_dumps df)) as Hhit.
  eexists w1, _. split; [|split].
  - change (fetch (QuandlCall id1) w = (inr df, w1)). by rewrite Hmiss.
  - exact Hhit.
  - cbn. exact Hr1.
Qed.

(** X6: [get_json_data] keys its cache by the file name alone.  After a
    first download under a file name, a call with another URL and the same
    file name returns the first table and sends nothing. *)
Theorem json_cache_ignores_url (url1 url2 file_name : string) (w : World)
    (df : DF) :
  create_error w (json_cache_path file_name) = None ->
  writable w = true ->
  files w !! json_cache_path file_name = None ->
  read_json_response url1 = inr df ->
  exists w1 w2,
    get_json_data read_json_response url1 file_name w = (inr df, w1)
    /\ get_json_data read_json_response url2 file_name w1 = (inr df, w2)
    /\ requests w2 = requests w ++ [url1].
Proof.
  intros Hpath Hw Hnone Hresp.
  destruct (except_branch_returns quandl_response read_json_response
              (JsonCall url1 file_name) w df Hresp Hpath Hw)
    as (w1 & Hrun & Hf1 & Hw1 & Hr1).
  pose proof (fetch_miss quandl_response read_json_response
                (JsonCall url1 file_name) w Hnone) as Hmiss.
  assert (files w1 !! cache_path (JsonCall url2 file_name) = Some (dumps df))
    as Hstored.
  { cbn [cache_path] in *. rewrite Hf1. apply lookup_insert_eq. }
  pose proof (fetch_hit_full (JsonCall url2 file_name) w1 (dumps df) df
                Hstored (loads_dumps df)) as Hhit.
  eexists w1, _. split; [|split].
  - change (fetch (JsonCall url1 file_name) w = (inr df, w1)). by rewrite Hmiss.
  - exact Hhit.
  - cbn. exact Hr1.
Qed.

End FetcherMore.


Section FetcherOutcomes.

Context {DF : Type} `{!Pickle DF}.
Variable quandl_response : string -> exn + DF.
Variable read_json_response : string -> exn + DF.

#[local] Abbreviation fetch := (fetch quandl_response read_json_response).
#[local] Abbreviation response := (response quandl_response read_json_response).

Ltac run_fetch :=
  unfold get_quandl_data, get_json_data, quandl_download, json_download,
    try_except, bind, open_rb, pickle_load, print, ret, quandl_get,
    read_json, to_pickle; cbn.

(** The download branch, case by case. *)
Lemma except_branch_outcome (c : fetch_call) (w : World) :
  except_branch quandl_response read_json_response c w
  = match response c with
    | inl e =>
        (inl e,
         mkWorld (files w) (writable w) (create_error w)
                 (requests w ++ [request c])
                 (stdout w ++ [downloading_line c]))
    | inr df =>
        match create_error w (cache_path c) with
        | Some e =>
            (inl e,
             mkWorld (files w) (writable w) (create_error w)
                     (requests w ++ [request c])
                     (stdout w ++ [downloading_line c]))
        | None =>
            if writable w
            then (inr df,
                  mkWorld (<[cache_path c := dumps df]> (files w)) (writable w)
                          (create_error w) (requests w ++ [request c])
                          ((stdout w ++ [downloading_line c]) ++ [cached_line c]))
            else (inl (PermissionError (cache_path c)),
                  mkWorld (files w) (writable w) (create_error w)
                          (requests w ++ [request c])
                          (stdout w ++ [downloading_line c]))
        end
    end.
Proof.
  destruct c;
    cbn [except_branch response request cache_path downloading_line cached_line];
    run_fetch;
    match goal with |- context [match ?r with inl _ => _ | inr _ => _ end] =>
      destruct r end; cbn; try done;
    match goal with |- context [create_error w ?p] =>
      destruct (create_error w p) end; try done; by destruct (writable w).
Qed.

(** A call that returns leaves the returned table in its cache file. *)
Lemma fetch_returns_cached (c : fetch_call) (w w' : World) (df : DF) :
  fetch c w = (inr df, w') -> cached w' (cache_path c) df.
Proof.
  assert (forall w0,
    except_branch quandl_response read_json_response c w0 = (inr df, w') ->
    cached w' (cache_path c) df) as Hexc.
  { intros w0. rewrite except_branch_outcome.
    destruct (response c) as [e|df0]; [done|].
    destruct (create_error w0 _); [done|].
    destruct (writable w0); [|done]. intros [= -> <-]. cbn.
    exists (dumps df). split; [apply lookup_insert_eq|apply loads_dumps]. }
  destruct (files w !! cache_path c) as [content|] eqn:Hfile.
  - destruct (loads content) as [e|df0] eqn:Hload.
    + rewrite (fetch_load_raises quandl_response read_json_response
                 c w content e Hfile Hload).
      destruct (is_OSError e); [apply Hexc|done].
    + rewrite (fetch_hit_full quandl_response read_json_response
                 c w content df0 Hfile Hload).
      intros [= -> <-]. by exists content.
  - rewrite (fetch_miss quandl_response read_json_response c w Hfile).
    apply Hexc.
Qed.

(** X7: what a call that returns has done.  Either it read the table from
    the cache: it printed the one line that says so and sent no request;
    or it downloaded the table: it printed two lines and sent exactly one
    request.  In both cases the cache file holds the returned table
    afterwards. *)
Theorem returning_call (c : fetch_call) (w w' : World) (df : DF) :
  fetch c w = (inr df, w') ->
  cached w' (cache_path c) df
  /\ ((stdout w' = stdout w ++ [loaded_line c]
       /\ requests w' = requests w /\ files w' = files w)
      \/ (stdout w' = stdout w ++ [downloading_line c; cached_line c]
          /\ requests w' = requests w ++ [request c]
          /\ files w' = <[cache_path c := dumps df]> (files w))).
Proof.
  assert (forall w0,
    except_branch quandl_response read_json_response c w0 = (inr df, w') ->
    cached w' (cache_path c) df
    /\ stdout w' = stdout w0 ++ [downloading_line c; cached_line c]
    /\ requests w' = requests w0 ++ [request c]
    /\ files w' = <[cache_path c := dumps df]> (files w0)) as Hexc.
  { intros w0. rewrite except_branch_outcome.
    destruct (response c) as [e|df0]; [done|].
    destruct (create_error w0 _); [done|].
    destruct (writable w0); [|done]. intros [= -> <-]. cbn.
    split; [|by rewrite <- app_assoc].
    exists (dumps df). split; [apply lookup_insert_eq|apply loads_dumps]. }
  destruct (files w !! cache_path c) as [content|] eqn:Hfile.
  - destruct (loads content) as [e|df0] eqn:Hload.
    + rewrite (fetch_load_raises quandl_response read_json_response
                 c w content e Hfile Hload).
      destruct (is_OSError e); [|done].
      intros [? ?]%Hexc. split; [done|by right].
    + rewrite (fetch_hit_full quandl_response read_json_response
                 c w content df0 Hfile Hload).
      intros [= -> <-]. cbn. split; [by exists content|]. by left.
  - rewrite (fetch_miss quandl_response read_json_response c w Hfile).
    intros [? ?]%Hexc. split; [done|by right].
Qed.

End FetcherOutcomes.


(** ** Poloniex data *)

Section PoloniexFacts.

Context {DF : Type} `{!Pickle DF}.
Variable read_json_response : string -> exn + DF.
Variable set_index : DF -> string -> exn + DF.

(** Two sessions of the notebook: the time window of the second differs
    from that of the first. *)
Variable start1 end1 start2 end2 : string.

#[local] Abbreviation get_crypto_data1 :=
  (get_crypto_data read_json_response set_index start1 end1).
#[local] Abbreviation get_crypto_data2 :=
  (get_crypto_data read_json_response set_index start2 end2).
#[local] Abbreviation url1 pair := (base_polo_url_format pair start1 end1 pediod).

Lemma get_crypto_data_run (start_ end_ pair : string) (w : World) :
  get_crypto_data read_json_response set_index start_ end_ pair w
  = match get_json_data read_json_response
            (base_polo_url_format pair start_ end_ pediod) pair w with
    | (inr raw, w') => (set_index raw "date", w')
    | (inl e, w') => (inl e, w')
    end.
Proof.
  unfold get_crypto_data, bind, lift_result, ret.
  destruct (get_json_data _ _ _ w) as [[e|raw] w']; [done|].
  by destruct (set_index raw "date").
Qed.

Lemma get_crypto_data_cached (start_ end_ pair : string) (w : World) (raw : DF) :
  cached w (json_cache_path pair) raw ->
  get_crypto_data read_json_response set_index start_ end_ pair w
  = (set_index raw "date",
     mkWorld (files w) (writable w) (create_error w) (requests w)
             (stdout w ++ ["Loaded " +:+ pair +:+ " from cache"])).
Proof.
  intros (content & Hfile & Hload). rewrite get_crypto_data_run.
  pose proof (fetch_hit_full read_json_response read_json_response
    (JsonCall (base_polo_url_format pair start_ end_ pediod) pair)
    w content raw Hfile Hload) as Hhit.
  cbn [fetch loaded_line] in Hhit. by rewrite Hhit.
Qed.

Lemma get_crypto_data_keeps_cached (start_ end_ pair : string) (w : World)
    (path : string) (df : DF) :
  cached w path df ->
  cached (get_crypto_data read_json_response set_index start_ end_ pair w).2
         path df.
Proof.
  intros (content & Hfile & Hload). exists content. split; [|done].
  rewrite get_crypto_data_run.
  pose proof (fetch_keeps_cached read_json_response read_json_response
    (JsonCall (base_polo_url_format pair start_ end_ pediod) pair)
    w path content df Hfile Hload) as Hkeep.
  cbn [fetch] in Hkeep.
  by destruct (get_json_data _ _ _ w) as [[e|raw] w'].
Qed.

Lemma get_crypto_data_returns (start_ end_ pair : string) (w w' : World)
    (table : DF) :
  get_crypto_data read_json_response set_index start_ end_ pair w
    = (inr table, w') ->
  exists raw,
    cached w' (json_cache_path pair) raw /\ set_index raw "date" = inr table.
Proof.
  rewrite get_crypto_data_run.
  destruct (get_json_data _ _ _ w) as [[e|raw] w0] eqn:Hrun; [done|].
  intros [= Hset <-]. exists raw. split; [|done].
  by apply (fetch_returns_cached read_json_response read_json_response
              (JsonCall (base_polo_url_format pair start_ end_ pediod) pair) w).
Qed.

(** X8: [get_crypto_data] caches by the currency pair, not by the time
    window.  Once a pair has been downloaded, a later session, whose URL
    ends at a later time, gets the table of the first download again and
    sends no request. *)
Theorem crypto_cache_outlives_window (pair : string) (w : World)
    (raw table : DF) :
  create_error w (json_cache_path pair) = None ->
  writable w = true ->
  files w !! json_cache_path pair = None ->
  read_json_response (url1 pair) = inr raw ->
  set_index raw "date" = inr table ->
  exists w1 w2,
    get_crypto_data1 pair w = (inr table, w1)
    /\ get_crypto_data2 pair w1 = (inr table, w2)
    /\ requests w2 = requests w ++ [url1 pair]
    /\ files w2 = files w1.
Proof.
  intros Hpath Hw Hnone Hresp Hset.
  destruct (except_branch_returns read_json_response read_json_response
              (JsonCall (url1 pair) pair) w raw Hresp Hpath Hw)
    as (w1 & Hrun & Hf1 & Hw1 & Hr1).
  pose proof (fetch_miss read_json_response read_json_response
                (JsonCall (url1 pair) pair) w Hnone) as Hmiss.
  cbn [fetch] in Hmiss. rewrite Hrun in Hmiss.
  assert (cached w1 (json_cache_path pair) raw) as Hcached.
  { exists (dumps raw). split; [|apply loads_dumps].
    rewrite Hf1. apply lookup_insert_eq. }
  eexists w1, _. split; [|split; [|split]].
  - by rewrite get_crypto_data_run, Hmiss, Hset.
  - by rewrite (get_crypto_data_cached _ _ _ _ _ Hcached), Hset.
  - exact Hr1.
  - done.
Qed.

(** X9: an answer that cannot be indexed is cached all the same.  When
    the downloaded table has no usable [date] column, the call raises, but
    only after the table has been pickled; every later call then raises
    the same exception from the cached table and never asks the provider
    again. *)
Theorem unusable_answer_is_cached (pair : string) (w : World) (raw : DF)
    (e : exn) :
  create_error w (json_cache_path pair) = None ->
  writable w = true ->
  files w !! json_cache_path pair = None ->
  read_json_response (url1 pair) = inr raw ->
  set_index raw "date" = inl e ->
  exists w1 w2,
    get_crypto_data1 pair w = (inl e, w1)
    /\ cached w1 (json_cache_path pair) raw
    /\ get_crypto_data2 pair w1 = (inl e, w2)
    /\ requests w2 = requests w1
    /\ files w2 = files w1.
Proof.
  intros Hpath Hw Hnone Hresp Hset.
  destruct (except_branch_returns read_json_response read_json_response
              (JsonCall (url1 pair) pair) w raw Hresp Hpath Hw)
    as (w1 & Hrun & Hf1 & Hw1 & Hr1).
  pose proof (fetch_miss read_json_response read_json_response
                (JsonCall (url1 pair) pair) w Hnone) as Hmiss.
  cbn [fetch] in Hmiss. rewrite Hrun in Hmiss.
  assert (cached w1 (json_cache_path pair) raw) as Hcached.
  { exists (dumps raw). split; [|apply loads_dumps].
    rewrite Hf1. apply lookup_insert_eq. }
  eexists w1, _. split; [|split; [|split; [|split]]].
  - by rewrite get_crypto_data_run, Hmiss, Hset.
  - exact Hcached.
  - by rewrite (get_crypto_data_cached _ _ _ _ _ Hcached), Hset.
  - done.
  - done.
Qed.

Lemma altcoin_loop_keeps_cached (start_ end_ : string) (coins : list string)
    (acc : list (string * DF)) (w : World) (path : string) (df : DF) :
  cached w path df ->
  cached (altcoin_loop read_json_response set_index start_ end_ coins acc w).2
         path df.
Proof.
  revert acc w. induction coins as [|coin coins IH]; intros acc w Hc; [done|].
  cbn [altcoin_loop].
  pose proof (get_crypto_data_keeps_cached start_ end_ ("BTC_" +:+ coin)
                w path df Hc) as Hstep.
  destruct (get_crypto_data _ _ _ _ _ w) as [[e|table] w']; [done|].
  by apply IH.
Qed.

Lemma altcoin_loop_again (coins : list string) :
  forall (acc data : list (string * DF)) (w w1 w2 : World),
    altcoin_loop read_json_response set_index start1 end1 coins acc w
      = ((inr tt, data), w1) ->
    (forall path df, cached w1 path df -> cached w2 path df) ->
    exists w3,
      altcoin_loop read_json_response set_index start2 end2 coins acc w2
        = ((inr tt, data), w3)
      /\ files w3 = files w2 /\ requests w3 = requests w2.
Proof.
  induction coins as [|coin coins IH]; intros acc data w w1 w2 Hrun Hsub.
  { cbn in *. injection Hrun as <- _. by exists w2. }
  cbn [altcoin_loop] in *.
  destruct (get_crypto_data _ _ start1 end1 _ w) as [[e|table] w'] eqn:Hstep;
    [done|].
  destruct (get_crypto_data_returns _ _ _ _ _ _ Hstep) as (raw & Hraw & Hset).
  assert (cached w2 (json_cache_path ("BTC_" +:+ coin)) raw) as Hraw2.
  { apply Hsub.
    pose proof (altcoin_loop_keeps_cached start1 end1 coins
                  (PyDict.setitem coin table acc) w' _ _ Hraw) as Hkeep.
    by rewrite Hrun in Hkeep. }
  rewrite (get_crypto_data_cached _ _ _ _ _ Hraw2), Hset.
  destruct (IH _ _ _ _
              (mkWorld (files w2) (writable w2) (create_error w2) (requests w2)
                 (stdout w2 ++ ["Loaded " +:+ ("BTC_" +:+ coin) +:+ " from cache"]))
              Hrun) as (w3 & Hrun3 & Hf3 & Hr3).
  { intros path df Hc. apply Hsub in Hc. exact Hc. }
  by exists w3.
Qed.

(** X10: once the download loop has run to its end, running it again
    sends no request and writes no file, and it fills [altcoin_data] with
    the very same frames, also in a later session with another time
    window. *)
Theorem altcoin_loop_rerun_is_offline (coins : list string)
    (data : list (string * DF)) (w w1 : World) :
  altcoin_loop read_json_response set_index start1 end1 coins [] w
    = ((inr tt, data), w1) ->
  exists w2,
    altcoin_loop read_json_response set_index start2 end2 coins [] w1
      = ((inr tt, data), w2)
    /\ files w2 = files w1
    /\ requests w2 = requests w1.
Proof.
  intros Hrun. by apply (altcoin_loop_again coins [] data w w1 w1 Hrun).
Qed.

End PoloniexFacts.


(** ** The series merger *)

Section MergeMore.

Implicit Types (dataframes : list DataFrame) (labels : list string)
  (col label : string) (series : list (gmap Z cell))
  (acc : list (string * gmap Z cell)).

Lemma merge_walk_few_labels dataframes labels col acc :
  Forall (fun df => col ∈ df_labels df) dataframes ->
  (length labels < length dataframes)%nat ->
  merge_walk dataframes labels col acc = inl IndexError.
Proof.
  intros Hcols. revert labels acc.
  induction Hcols as [|df dataframes Hcol _ IH]; intros labels acc Hlen.
  { cbn in Hlen. lia. }
  cbn [merge_walk]. apply getitem_present in Hcol as [s Hs].
  unfold df_getitem. rewrite Hs. cbn [rbind].
  destruct labels as [|label labels]; [done|].
  apply IH. cbn in Hlen. lia.
Qed.

(** X11: with fewer labels than frames the merge raises [IndexError]
    (when every frame has the field, so that no [KeyError] comes first);
    no table is returned for the frames that do have a label. *)
Theorem merge_too_few_labels dataframes labels col :
  Forall (fun df => col ∈ df_labels df) dataframes ->
  (length labels < length dataframes)%nat ->
  merge_dfs_on_column dataframes labels col = inl IndexError.
Proof.
  intros Hcols Hlen. rewrite merge_dfs_on_column_walk.
  by rewrite merge_walk_few_labels.
Qed.

Lemma merge_walk_take dataframes labels col acc :
  merge_walk dataframes labels col acc
  = merge_walk dataframes (take (length dataframes) labels) col acc.
Proof.
  revert labels acc.
  induction dataframes as [|df dataframes IH]; intros labels acc; [done|].
  cbn [merge_walk length]. destruct (df_getitem df col); [done|]. cbn [rbind].
  destruct labels as [|label labels]; [done|]. cbn [take]. apply IH.
Qed.

(** X12: labels beyond the number of frames are never read: the merge
    gives the same result, table or exception, as with the surplus labels
    cut off. *)
Theorem merge_surplus_labels dataframes labels col :
  merge_dfs_on_column dataframes labels col
  = merge_dfs_on_column dataframes (take (length dataframes) labels) col.
Proof. by rewrite !merge_dfs_on_column_walk, merge_walk_take. Qed.

Lemma first_occurrences_NoDup_out labels : NoDup (first_occurrences labels).
Proof.
  induction labels as [|l labels IH]; cbn; [constructor|].
  constructor; [|by apply NoDup_filter].
  by intros [Hne _]%list_elem_of_filter.
Qed.

Lemma first_occurrences_length labels :
  (length (first_occurrences labels) <= length labels)%nat.
Proof.
  induction labels as [|l labels IH]; cbn; [done|].
  pose proof (length_filter (fun l' => l' ≠ l) (first_occurrences labels)).
  lia.
Qed.

(** X13: whatever the frames and labels, a table the merge returns is well
    formed: every column covers exactly the rows of the table, no label
    heads two columns, and there are at most as many columns as frames. *)
Theorem merged_table_is_well_formed dataframes labels col t :
  merge_dfs_on_column dataframes labels col = inr t ->
  wf_frame t
  /\ NoDup (df_labels t)
  /\ (length (df_columns t) <= length dataframes)%nat.
Proof.
  rewrite merge_dfs_on_column_walk.
  destruct (merge_walk dataframes labels col []) as [e|series_dict] eqn:Hwalk;
    [done|].
  intros [= <-]. split; [apply DataFrame_of_dict_wf|].
  assert (df_labels (DataFrame_of_dict series_dict)
          = first_occurrences (take (length dataframes) labels)) as Hkeys.
  { unfold df_labels, DataFrame_of_dict. cbn [df_columns].
    set (index := union_indexes _).
    rewrite (keys_fmap (fun s => reindex s index)).
    rewrite (keys_merge_walk _ _ _ _ _ Hwalk). cbn [PyDict.keys fmap list_fmap app].
    apply filter_all, Forall_forall. intros l _. apply not_elem_of_nil. }
  split.
  - rewrite Hkeys. apply first_occurrences_NoDup_out.
  - change (length (df_columns (DataFrame_of_dict series_dict)))
      with (length ((fun kv : string * gmap Z cell =>
                       (kv.1, reindex kv.2 (union_indexes (PyDict.values series_dict))))
                    <$> series_dict)).
    rewrite length_fmap.
    rewrite <- (length_fmap fst series_dict).
    change (fst <$> series_dict) with (PyDict.keys series_dict).
    rewrite (keys_merge_walk _ _ _ _ _ Hwalk). cbn [PyDict.keys fmap list_fmap app].
    rewrite filter_all by (apply Forall_forall; intros l _; apply not_elem_of_nil).
    pose proof (first_occurrences_length (take (length dataframes) labels)).
    rewrite length_take in *. lia.
Qed.

Lemma merge_walk_other_label dataframes labels col acc series_dict label :
  merge_walk dataframes labels col acc = inr series_dict ->
  (forall k, (k < length dataframes)%nat -> labels !! k ≠ Some label) ->
  PyDict.getitem series_dict label = PyDict.getitem acc label.
Proof.
  revert labels acc.
  induction dataframes as [|df dataframes IH]; intros labels acc.
  { cbn. by intros [= <-]. }
  cbn [merge_walk]. destruct (df_getitem df col) as [e|s]; [done|]. cbn [rbind].
  destruct labels as [|l labels]; [done|].
  intros Hwalk Hother. rewrite (IH _ _ Hwalk).
  - rewrite getitem_setitem, decide_False; [done|].
    intros ->. by apply (Hother 0%nat); [cbn; lia|].
  - intros k Hk. apply (Hother (S k)). cbn. lia.
Qed.

Lemma merge_walk_last dataframes labels col series acc series_dict j label s :
  Forall2 (fun df s => df_getitem df col = inr s) dataframes series ->
  merge_walk dataframes labels col acc = inr series_dict ->
  labels !! j = Some label -> series !! j = Some s ->
  (forall k, (j < k)%nat -> (k < length dataframes)%nat ->
             labels !! k ≠ Some label) ->
  PyDict.getitem series_dict label = inr s.
Proof.
  intros Hcols. revert labels acc j.
  induction Hcols as [|df s0 dataframes series Hget _ IH]; intros labels acc j.
  { intros _ _ Hs. done. }
  cbn [merge_walk]. rewrite Hget. cbn [rbind].
  destruct labels as [|l labels]; [done|].
  intros Hwalk Hlabel Hs Hlast. destruct j as [|j]; cbn in Hlabel, Hs.
  - injection Hlabel as ->. injection Hs as ->.
    rewrite (merge_walk_other_label _ _ _ _ _ label Hwalk).
    + by rewrite getitem_setitem, decide_True.
    + intros k Hk. apply (Hlast (S k)); cbn; lia.
  - apply (IH _ _ j Hwalk Hlabel Hs).
    intros k Hjk Hk. apply (Hlast (S k)); cbn; lia.
Qed.

(** X14: when a label is given to several frames, the last of them wins:
    the column under that label is the Series of the last frame that
    carries it, aligned to the rows of the table, and the Series of the
    earlier frames with that label are gone. *)
Theorem repeated_label_last_frame_wins dataframes labels col series t j label s :
  Forall2 (fun df s => df_getitem df col = inr s) dataframes series ->
  merge_dfs_on_column dataframes labels col = inr t ->
  labels !! j = Some label ->
  series !! j = Some s ->
  (forall k, (j < k)%nat -> (k < length dataframes)%nat ->
             labels !! k ≠ Some label) ->
  df_getitem t label = inr (reindex s (df_index t)).
Proof.
  intros Hcols. rewrite merge_dfs_on_column_walk.
  destruct (merge_walk dataframes labels col []) as [e|series_dict] eqn:Hwalk;
    [done|].
  intros [= <-] Hlabel Hs Hlast.
  unfold df_getitem, DataFrame_of_dict. cbn [df_columns df_index].
  set (index := union_indexes _).
  rewrite (getitem_fmap (fun s0 => reindex s0 index)).
  by rewrite (merge_walk_last _ _ _ _ _ _ _ _ _ Hcols Hwalk Hlabel Hs Hlast).
Qed.

Lemma setitem_NoDup {V} (k : string) (v : V) (d : list (string * V)) :
  NoDup (PyDict.keys d) -> NoDup (PyDict.keys (PyDict.setitem k v d)).
Proof.
  intros Hnd. rewrite keys_setitem. case_decide; [done|].
  apply NoDup_app. split; [done|]. split; [|apply NoDup_singleton].
  intros k' Hk' ->%list_elem_of_singleton. done.
Qed.

Lemma columns_present dataframes col :
  Forall (fun df => col ∈ df_labels df) dataframes ->
  exists series,
    Forall2 (fun df s => df_getitem df col = inr s) dataframes series.
Proof.
  induction 1 as [|df dataframes Hcol _ [series IH]]; [by exists []|].
  apply getitem_present in Hcol as [s Hs]. exists (s :: series).
  by constructor.
Qed.

Lemma merge_dict_returns (d : list (string * DataFrame)) col :
  NoDup (PyDict.keys d) ->
  Forall (fun df => col ∈ df_labels df) (PyDict.values d) ->
  exists t,
    merge_dict d col = inr t
    /\ df_labels t = PyDict.keys d
    /\ length (df_columns t) = length d.
Proof.
  intros Hnd Hcols. destruct (columns_present _ _ Hcols) as [series Hseries].
  pose proof (Forall2_length _ _ _ Hseries) as Hlen.
  unfold merge_dict, PyDict.values, PyDict.keys in *.
  rewrite length_fmap in Hlen.
  rewrite (merge_dfs_on_column_distinct _ _ _ _ Hseries);
    [|by rewrite !length_fmap|done].
  eexists. split; [done|].
  unfold df_labels, DataFrame_of_dict. cbn [df_columns].
  set (index := union_indexes _).
  rewrite (keys_fmap (fun s => reindex s index)).
  unfold PyDict.keys. rewrite fst_zip by (rewrite length_fmap; lia).
  split; [done|].
  rewrite length_fmap, length_zip, length_fmap. lia.
Qed.

(** X15: the notebook hands the merger the values and the keys of one
    dictionary.  For a dictionary, whose keys are distinct, in which every
    frame has the field, that call cannot fail: it returns a table with
    one column per key, in the order of the keys. *)
Theorem merge_dict_columns (d : list (string * DataFrame)) col :
  NoDup (PyDict.keys d) ->
  Forall (fun df => col ∈ df_labels df) (PyDict.values d) ->
  exists t,
    merge_dict d col = inr t
    /\ df_labels t = PyDict.keys d
    /\ length (df_columns t) = length d.
Proof. apply merge_dict_returns. Qed.

End MergeMore.


(** ** Column assignment *)

Lemma Forall_setitem {V} (P : string * V -> Prop) (k : string) (v : V)
    (d : list (string * V)) :
  (forall k', P (k', v)) -> Forall P d -> Forall P (PyDict.setitem k v d).
Proof.
  intros Hv. induction 1 as [|[k0 v0] d Hkv Hd IH]; cbn.
  - by repeat constructor.
  - case_decide; constructor; auto.
Qed.

Lemma getitem_app_fresh {V} (seen todo : list (string * V)) (k : string) :
  k ∉ PyDict.keys seen ->
  PyDict.getitem (seen ++ todo) k = PyDict.getitem todo k.
Proof.
  unfold PyDict.keys. induction seen as [|[k0 v0] seen IH]; cbn; [done|].
  intros [Hne Hnin]%not_elem_of_cons. rewrite decide_False by congruence. auto.
Qed.

Lemma setitem_app_fresh {V} (seen rest : list (string * V)) (k : string)
    (v0 v : V) :
  k ∉ PyDict.keys seen ->
  PyDict.setitem k v (seen ++ (k, v0) :: rest) = seen ++ (k, v) :: rest.
Proof.
  unfold PyDict.keys. induction seen as [|[k1 v1] seen IH]; cbn.
  - intros _. by rewrite decide_True.
  - intros [Hne Hnin]%not_elem_of_cons. rewrite decide_False by congruence.
    by rewrite IH.
Qed.

Lemma df_index_setitem_nonempty (df : DataFrame) (col : string)
    (s : gmap Z cell) :
  df_index df ≠ ∅ -> df_index (df_setitem df col s) = df_index df.
Proof. intros Hne. unfold df_setitem. cbn. by rewrite decide_False. Qed.

Lemma df_getitem_setitem_other (df : DataFrame) (col col' : string)
    (s : gmap Z cell) :
  col ≠ col' -> df_index df ≠ ∅ ->
  df_getitem (df_setitem df col s) col' = df_getitem df col'.
Proof.
  intros Hcol Hne. unfold df_getitem, df_setitem. cbn [df_columns].
  rewrite getitem_setitem, decide_False by done. by rewrite decide_False.
Qed.

Lemma df_labels_setitem_exact (df : DataFrame) (col : string) (s : gmap Z cell) :
  df_labels (df_setitem df col s)
  = if decide (col ∈ df_labels df) then df_labels df
    else df_labels df ++ [col].
Proof.
  unfold df_labels, df_setitem. cbn [df_columns]. rewrite keys_setitem.
  destruct (decide (df_index df = ∅)); [|done].
  by rewrite (keys_fmap (fun s0 => reindex s0 (dom s))).
Qed.

Lemma df_setitem_wf (df : DataFrame) (col : string) (s : gmap Z cell) :
  wf_frame df -> wf_frame (df_setitem df col s).
Proof.
  unfold wf_frame, df_setitem. cbn [df_index df_columns]. intros Hwf.
  apply Forall_setitem; [intros k'; cbn; apply dom_reindex|].
  destruct (decide (df_index df = ∅)); [|done].
  apply Forall_fmap, Forall_forall. intros [k s0] _. cbn. apply dom_reindex.
Qed.

(** X16: adding the Bitcoin price to the combined table.  When the index
    frame has its average column and the table has rows, the assignment
    keeps the rows and every other column as they are; the [BTC] column
    holds the average price at the dates of the table, unset where the
    average has no such date, and the dates that only the average has are
    dropped.  A new [BTC] column is the last one. *)
Theorem btc_column_is_aligned (combined_df btc_usd_datasets : DataFrame)
    (btc_price : gmap Z cell) :
  df_getitem btc_usd_datasets "avg_btc_price_usd" = inr btc_price ->
  df_index combined_df ≠ ∅ ->
  exists t,
    add_btc_column combined_df btc_usd_datasets = inr t
    /\ df_index t = df_index combined_df
    /\ (forall d, df_cell t "BTC" d
                  = if decide (d ∈ df_index combined_df)
                    then Some (default NaN (btc_price !! d)) else None)
    /\ (forall col, col ≠ "BTC" ->
                    df_getitem t col = df_getitem combined_df col)
    /\ ("BTC" ∉ df_labels combined_df ->
        df_labels t = df_labels combined_df ++ ["BTC"])
    /\ (wf_frame combined_df -> wf_frame t).
Proof.
  intros Hbtc Hrows. unfold add_btc_column. rewrite Hbtc. cbn [rbind].
  eexists. split; [done|].
  split; [by apply df_index_setitem_nonempty|].
  split; [|split; [|split]].
  - intros d. unfold df_cell.
    rewrite df_getitem_setitem, reindex_lookup.
    by rewrite df_index_setitem_nonempty.
  - intros col Hcol. by apply df_getitem_setitem_other.
  - intros Hnew. by rewrite df_labels_setitem_exact, decide_False.
  - apply df_setitem_wf.
Qed.

(** ** Conversion to USD *)

Section ConversionMore.

Variable btc_usd_datasets : DataFrame.
Variable btc_price : gmap Z cell.
Hypothesis Hbtc :
  df_getitem btc_usd_datasets "avg_btc_price_usd" = inr btc_price.

Lemma price_usd_step_with (altcoin : string)
    (altcoin_data : list (string * DataFrame)) (df : DataFrame) :
  PyDict.getitem altcoin_data altcoin = inr df ->
  price_usd_step btc_usd_datasets altcoin altcoin_data
  = match with_price_usd btc_price df with
    | inr df' => inr (PyDict.setitem altcoin df' altcoin_data)
    | inl e => inl e
    end.
Proof.
  intros Hdf. unfold price_usd_step, with_price_usd. rewrite Hdf. cbn [rbind].
  destruct (df_getitem df "weightedAverage"); [done|]. cbn [rbind].
  by rewrite Hbtc.
Qed.

(** On a dictionary the loop is the pass over its entries. *)
Lemma price_usd_loop_pass (todo : list (string * DataFrame)) :
  forall seen,
    NoDup (PyDict.keys (seen ++ todo)) ->
    price_usd_loop btc_usd_datasets (PyDict.keys todo) (seen ++ todo)
    = let '(r, todo') := with_price_usd_all btc_price todo in
      (r, seen ++ todo').
Proof.
  induction todo as [|[k df] todo IH]; intros seen Hnd; [done|].
  assert (k ∉ PyDict.keys seen) as Hfresh.
  { unfold PyDict.keys in *. rewrite fmap_app in Hnd.
    apply NoDup_app in Hnd as (_ & Hdisj & _). intros Hin.
    apply (Hdisj _ Hin). cbn. by left. }
  cbn [PyDict.keys fmap list_fmap price_usd_loop with_price_usd_all].
  rewrite (price_usd_step_with k _ df).
  2: { rewrite getitem_app_fresh by done. cbn. by rewrite decide_True. }
  destruct (with_price_usd btc_price df) as [e|df'] eqn:Hwith; [done|].
  rewrite setitem_app_fresh by done.
  change (seen ++ (k, df') :: todo) with (seen ++ [(k, df')] ++ todo).
  rewrite app_assoc.
  change (list_fmap _ _ fst todo) with (PyDict.keys todo).
  rewrite IH.
  - destruct (with_price_usd_all btc_price todo) as [r todo'].
    by rewrite <- app_assoc.
  - unfold PyDict.keys in *. rewrite !fmap_app in *. cbn in *.
    by rewrite <- app_assoc.
Qed.

Lemma convert_prices_pass (altcoin_data : list (string * DataFrame)) :
  NoDup (PyDict.keys altcoin_data) ->
  convert_prices_to_usd btc_usd_datasets altcoin_data
  = with_price_usd_all btc_price altcoin_data.
Proof.
  intros Hnd. unfold convert_prices_to_usd.
  pose proof (price_usd_loop_pass altcoin_data [] Hnd) as Hpass.
  cbn [app] in Hpass. rewrite Hpass.
  by destruct (with_price_usd_all btc_price altcoin_data).
Qed.

End ConversionMore.


Lemma setitem_setitem {V} (k : string) (v v' : V) (d : list (string * V)) :
  PyDict.setitem k v (PyDict.setitem k v' d) = PyDict.setitem k v d.
Proof.
  induction d as [|[k0 v0] d IH]; cbn.
  - by rewrite decide_True.
  - destruct (decide (k0 = k)) as [->|Hne]; cbn.
    + by rewrite decide_True.
    + rewrite decide_False by done. by rewrite IH.
Qed.

Lemma dom_series_mul (a b : gmap Z cell) : dom (series_mul a b) = dom a ∪ dom b.
Proof.
  apply set_eq. intros d. rewrite elem_of_dom, series_mul_lookup.
  case_decide; [by split; eauto|]. split; [by intros [? [=]]|done].
Qed.

Lemma series_mul_reindex (a b : gmap Z cell) :
  series_mul (reindex a (dom a ∪ dom b)) b = series_mul a b.
Proof.
  apply map_eq. intros d. rewrite !series_mul_lookup, dom_reindex.
  rewrite <- (assoc_L (∪)), (idemp_L (∪) (dom b)).
  case_decide; [|done]. rewrite reindex_lookup. by rewrite decide_True.
Qed.

Lemma df_setitem_twice (df : DataFrame) (col : string) (s : gmap Z cell) :
  df_setitem (df_setitem df col s) col s = df_setitem df col s.
Proof.
  destruct df as [idx cols]. unfold df_setitem. cbn [df_index df_columns].
  destruct (decide (idx = ∅)) as [->|Hrows].
  - destruct (decide (dom s = ∅)) as [Hs|Hs].
    + rewrite Hs.
      set (column := reindex s ∅).
      set (cols0 := _ <$> cols).
      set (cols1 := PyDict.setitem col column cols0).
      assert (Forall (fun c : string * gmap Z cell => dom c.2 = ∅) cols1) as Hdom.
      { apply Forall_setitem; [intros k'; cbn; apply dom_reindex|].
        unfold cols0. apply Forall_fmap, Forall_forall. intros [k s0] _. cbn.
        apply dom_reindex. }
      assert ((fun c : string * gmap Z cell => (c.1, reindex c.2 ∅)) <$> cols1
              = cols1) as ->.
      { clear -Hdom. induction Hdom as [|[k s0] cols1 Hk _ IH]; [done|].
        cbn in *. rewrite IH. do 2 f_equal.
        rewrite <- Hk. apply reindex_dom. }
      unfold cols1. by rewrite setitem_setitem.
    + by rewrite setitem_setitem.
  - rewrite !decide_False by done. by rewrite setitem_setitem.
Qed.

Section PriceUsd.

Variable btc_price : gmap Z cell.

#[local] Abbreviation converts := (converted btc_price).

Lemma with_price_usd_cell (df df' : DataFrame) (rate : gmap Z cell) (d : Z) :
  with_price_usd btc_price df = inr df' ->
  df_getitem df "weightedAverage" = inr rate ->
  df_cell df' "price_usd" d
  = if decide (d ∈ df_index df')
    then Some (cell_mul (default NaN (rate !! d)) (default NaN (btc_price !! d)))
    else None.
Proof.
  unfold with_price_usd. intros Hwith Hrate. rewrite Hrate in Hwith.
  cbn [rbind] in Hwith. injection Hwith as <-.
  unfold df_cell. rewrite df_getitem_setitem, reindex_lookup.
  case_decide; [|done]. f_equal. rewrite series_mul_lookup.
  case_decide as Hin; [done|]. cbn.
  apply not_elem_of_union in Hin as [Ha Hb].
  by rewrite (not_elem_of_dom_1 _ _ Ha), (not_elem_of_dom_1 _ _ Hb).
Qed.

Lemma with_price_usd_keeps (df df' : DataFrame) :
  with_price_usd btc_price df = inr df' ->
  df_index df ≠ ∅ ->
  df_index df' = df_index df
  /\ (forall col, col ≠ "price_usd" -> df_getitem df' col = df_getitem df col)
  /\ (wf_frame df -> wf_frame df').
Proof.
  unfold with_price_usd.
  destruct (df_getitem df "weightedAverage") as [e|rate]; [done|].
  cbn [rbind]. intros [= <-] Hrows.
  split; [by apply df_index_setitem_nonempty|]. split.
  - intros col Hcol. by apply df_getitem_setitem_other.
  - apply df_setitem_wf.
Qed.

Lemma with_price_usd_column (df df' : DataFrame) :
  with_price_usd btc_price df = inr df' -> "price_usd" ∈ df_labels df'.
Proof.
  unfold with_price_usd.
  destruct (df_getitem df "weightedAverage") as [e|rate]; [done|].
  cbn [rbind]. intros [= <-]. rewrite df_labels_setitem_exact.
  case_decide; [done|]. apply elem_of_app. right. by apply list_elem_of_singleton.
Qed.

Lemma with_price_usd_again (df df' : DataFrame) :
  with_price_usd btc_price df = inr df' ->
  with_price_usd btc_price df' = inr df'.
Proof.
  unfold with_price_usd.
  destruct (df_getitem df "weightedAverage") as [e|rate] eqn:Hrate; [done|].
  cbn [rbind]. intros [= <-].
  destruct (decide (df_index df = ∅)) as [Hempty|Hrows].
  - assert (df_getitem (df_setitem df "price_usd" (series_mul rate btc_price))
              "weightedAverage"
            = inr (reindex rate (dom rate ∪ dom btc_price))) as ->.
    { unfold df_getitem, df_setitem in *. cbn [df_columns].
      rewrite getitem_setitem, decide_False by done.
      destruct (decide (df_index df = ∅)) as [_|?]; [|done].
      rewrite (getitem_fmap (fun s0 => reindex s0 (dom (series_mul rate btc_price)))).
      by rewrite Hrate, dom_series_mul. }
    cbn [rbind]. by rewrite series_mul_reindex, df_setitem_twice.
  - rewrite df_getitem_setitem_other by done. rewrite Hrate. cbn [rbind].
    by rewrite df_setitem_twice.
Qed.

Lemma with_price_usd_present (df : DataFrame) :
  "weightedAverage" ∈ df_labels df ->
  exists df', with_price_usd btc_price df = inr df'.
Proof.
  intros [rate Hrate]%getitem_present. unfold with_price_usd, df_getitem.
  rewrite Hrate. by eexists.
Qed.

Lemma with_price_usd_missing (df : DataFrame) :
  "weightedAverage" ∉ df_labels df ->
  with_price_usd btc_price df = inl (KeyError "weightedAverage").
Proof.
  intros Hbad. unfold with_price_usd, df_getitem.
  by rewrite (getitem_missing _ _ Hbad).
Qed.

Lemma with_price_usd_all_returns (altcoin_data : list (string * DataFrame)) :
  Forall (fun df => "weightedAverage" ∈ df_labels df)
         (PyDict.values altcoin_data) ->
  exists altcoin_data',
    with_price_usd_all btc_price altcoin_data = (inr tt, altcoin_data')
    /\ Forall2 converts altcoin_data altcoin_data'.
Proof.
  unfold PyDict.values.
  induction altcoin_data as [|[k df] rest IH]; intros Hrates.
  { exists []. by split. }
  cbn [fmap list_fmap snd] in Hrates.
  apply Forall_cons in Hrates as [Hrate Hrest].
  destruct (IH Hrest) as (rest' & Hrun & Hall).
  destruct (with_price_usd_present df Hrate) as [df' Hdf].
  exists ((k, df') :: rest'). cbn [with_price_usd_all]. rewrite Hdf, Hrun.
  split; [done|]. by constructor.
Qed.

Lemma with_price_usd_all_stops (ok rest : list (string * DataFrame))
    (k : string) (df : DataFrame) :
  Forall (fun df => "weightedAverage" ∈ df_labels df) (PyDict.values ok) ->
  "weightedAverage" ∉ df_labels df ->
  exists ok',
    with_price_usd_all btc_price (ok ++ (k, df) :: rest)
    = (inl (KeyError "weightedAverage"), ok' ++ (k, df) :: rest)
    /\ Forall2 converts ok ok'.
Proof.
  unfold PyDict.values. intros Hrates Hbad.
  induction ok as [|[k0 df0] ok IH].
  - exists []. split; [|done]. cbn [app with_price_usd_all].
    by rewrite (with_price_usd_missing df Hbad).
  - cbn [fmap list_fmap snd] in Hrates.
    apply Forall_cons in Hrates as [Hrate Hrest].
    destruct (IH Hrest) as (ok' & Hrun & Hall).
    destruct (with_price_usd_present df0 Hrate) as [df0' Hdf].
    exists ((k0, df0') :: ok'). cbn [app with_price_usd_all].
    rewrite Hdf, Hrun. split; [done|]. by constructor.
Qed.

Lemma converts_keys (d d' : list (string * DataFrame)) :
  Forall2 converts d d' -> PyDict.keys d' = PyDict.keys d.
Proof.
  unfold PyDict.keys. induction 1 as [|[k v] [k' v'] d d' [Hk _] _ IH]; [done|].
  cbn in *. by rewrite Hk, IH.
Qed.

Lemma converts_getitem (d d' : list (string * DataFrame)) (k : string)
    (df : DataFrame) :
  Forall2 converts d d' -> PyDict.getitem d k = inr df ->
  exists df', PyDict.getitem d' k = inr df'
              /\ with_price_usd btc_price df = inr df'.
Proof.
  induction 1 as [|[k0 v] [k' v'] d d' [Hk Hv] _ IH]; [done|].
  cbn in *. subst k'. case_decide; [|done]. intros [= ->]. eauto.
Qed.

Lemma converts_again (d d' : list (string * DataFrame)) :
  Forall2 converts d d' ->
  with_price_usd_all btc_price d' = (inr tt, d').
Proof.
  induction 1 as [|[k v] [k' v'] d d' [Hk Hv] _ IH]; [done|].
  cbn in *. by rewrite (with_price_usd_again _ _ Hv), IH.
Qed.

End PriceUsd.

(** ** The conversion cell as a whole *)

Lemma with_price_usd_all_converts (btc_price : gmap Z cell)
    (d d' : list (string * DataFrame)) :
  with_price_usd_all btc_price d = (inr tt, d') ->
  Forall2 (converted btc_price) d d'.
Proof.
  revert d'. induction d as [|[k df] d IH]; intros d'; cbn.
  { intros [= <-]. constructor. }
  destruct (with_price_usd btc_price df) as [e|df'] eqn:Hdf; [done|].
  destruct (with_price_usd_all btc_price d) as [r rest'].
  intros [= -> <-]. constructor; [done|]. by apply IH.
Qed.

(** Without the average column the first pass raises and nothing is
    converted. *)
Lemma convert_without_index (btc_usd_datasets : DataFrame) (k : string)
    (df : DataFrame) (rest : list (string * DataFrame)) :
  "avg_btc_price_usd" ∉ df_labels btc_usd_datasets ->
  convert_prices_to_usd btc_usd_datasets ((k, df) :: rest)
  = (inl (KeyError (if decide ("weightedAverage" ∈ df_labels df)
                    then "avg_btc_price_usd" else "weightedAverage")),
     (k, df) :: rest).
Proof.
  intros Hbad. unfold convert_prices_to_usd.
  cbn [PyDict.keys fmap list_fmap fst price_usd_loop].
  unfold price_usd_step. cbn [PyDict.getitem]. rewrite decide_True by done.
  cbn [rbind]. case_decide as Hrate.
  - apply getitem_present in Hrate as [rate Hrate].
    unfold df_getitem at 1. rewrite Hrate. cbn [rbind].
    unfold df_getitem. by rewrite (getitem_missing _ _ Hbad).
  - unfold df_getitem at 1. by rewrite (getitem_missing _ _ Hrate).
Qed.

(** A run of the loop that completes is the pass over the entries, for
    the average column of the index frame. *)
Lemma convert_completes (btc_usd_datasets : DataFrame)
    (d d' : list (string * DataFrame)) :
  NoDup (PyDict.keys d) ->
  convert_prices_to_usd btc_usd_datasets d = (inr tt, d') ->
  d = [] /\ d' = []
  \/ exists btc_price,
       df_getitem btc_usd_datasets "avg_btc_price_usd" = inr btc_price
       /\ Forall2 (converted btc_price) d d'.
Proof.
  intros Hnd Hrun.
  destruct (df_getitem btc_usd_datasets "avg_btc_price_usd")
    as [e|btc_price] eqn:Hbtc.
  - left. destruct d as [|[k df] rest].
    + cbn in Hrun. by injection Hrun as <-.
    + rewrite convert_without_index in Hrun; [done|].
      intros [s Hs]%getitem_present. unfold df_getitem in Hbtc.
      by rewrite Hs in Hbtc.
  - right. exists btc_price. split; [done|].
    rewrite (convert_prices_pass _ _ Hbtc _ Hnd) in Hrun.
    by apply with_price_usd_all_converts.
Qed.

(** X17: what a completed conversion has done to [altcoin_data].  The keys
    and their order are kept, and every frame now has a [price_usd]
    column; a frame with rows keeps its rows and every other column as
    they were, and every column still covers the rows. *)
Theorem conversion_keeps_frames (btc_usd_datasets : DataFrame)
    (altcoin_data altcoin_data' : list (string * DataFrame)) :
  NoDup (PyDict.keys altcoin_data) ->
  convert_prices_to_usd btc_usd_datasets altcoin_data
    = (inr tt, altcoin_data') ->
  PyDict.keys altcoin_data' = PyDict.keys altcoin_data
  /\ forall altcoin df,
       PyDict.getitem altcoin_data altcoin = inr df ->
       exists df',
         PyDict.getitem altcoin_data' altcoin = inr df'
         /\ "price_usd" ∈ df_labels df'
         /\ (df_index df ≠ ∅ ->
             df_index df' = df_index df
             /\ forall col, col ≠ "price_usd" ->
                  df_getitem df' col = df_getitem df col)
         /\ (wf_frame df -> wf_frame df').
Proof.
  intros Hnd Hrun.
  destruct (convert_completes _ _ _ Hnd Hrun)
    as [[-> ->]|(btc_price & Hbtc & Hall)]; [by split|].
  split; [by eapply converts_keys|].
  intros altcoin df Hdf.
  destruct (converts_getitem _ _ _ _ _ Hall Hdf) as (df' & Hdf' & Hwith).
  exists df'. split; [done|]. split; [by eapply with_price_usd_column|].
  split.
  - intros Hrows.
    destruct (with_price_usd_keeps _ _ _ Hwith Hrows) as (? & ? & _). by split.
  - intros Hwf. unfold with_price_usd in Hwith.
    destruct (df_getitem df "weightedAverage"); [done|].
    cbn [rbind] in Hwith. injection Hwith as <-. by apply df_setitem_wf.
Qed.

(** X18: the price in USD is the product of the exchange rate and the
    Bitcoin price of the same day.  After a completed conversion, at every
    row of a frame the [price_usd] cell is the [weightedAverage] cell of
    that row times the average Bitcoin price of that date, and unset as
    soon as one of the two is unset or missing (numbers are exact in this
    development: rounding is not modelled). *)
Theorem price_usd_is_the_product (btc_usd_datasets : DataFrame)
    (btc_price rate : gmap Z cell)
    (altcoin_data altcoin_data' : list (string * DataFrame))
    (altcoin : string) (df : DataFrame) :
  NoDup (PyDict.keys altcoin_data) ->
  df_getitem btc_usd_datasets "avg_btc_price_usd" = inr btc_price ->
  convert_prices_to_usd btc_usd_datasets altcoin_data
    = (inr tt, altcoin_data') ->
  PyDict.getitem altcoin_data altcoin = inr df ->
  df_getitem df "weightedAverage" = inr rate ->
  exists df',
    PyDict.getitem altcoin_data' altcoin = inr df'
    /\ forall d, d ∈ df_index df' ->
         df_cell df' "price_usd" d
         = Some (cell_mul (default NaN (rate !! d))
                          (default NaN (btc_price !! d))).
Proof.
  intros Hnd Hbtc Hrun Hdf Hrate.
  rewrite (convert_prices_pass _ _ Hbtc _ Hnd) in Hrun.
  apply with_price_usd_all_converts in Hrun.
  destruct (converts_getitem _ _ _ _ _ Hrun Hdf) as (df' & Hdf' & Hwith).
  exists df'. split; [done|]. intros d Hd.
  rewrite (with_price_usd_cell _ _ _ _ d Hwith Hrate).
  by rewrite decide_True.
Qed.

(** X19: the loop stops at the first frame without a [weightedAverage]
    column and raises [KeyError]; the frames before it have been converted
    and stay converted, that frame and the frames after it are as they
    were (every key holding a frame of its own, as the download loop
    builds them). *)
Theorem conversion_stops_at_first_bad_frame (btc_usd_datasets : DataFrame)
    (btc_price : gmap Z cell) (ok rest : list (string * DataFrame))
    (k : string) (df : DataFrame) :
  df_getitem btc_usd_datasets "avg_btc_price_usd" = inr btc_price ->
  NoDup (PyDict.keys (ok ++ (k, df) :: rest)) ->
  Forall (fun df => "weightedAverage" ∈ df_labels df) (PyDict.values ok) ->
  "weightedAverage" ∉ df_labels df ->
  exists ok',
    convert_prices_to_usd btc_usd_datasets (ok ++ (k, df) :: rest)
    = (inl (KeyError "weightedAverage"), ok' ++ (k, df) :: rest)
    /\ Forall2 (converted btc_price) ok ok'.
Proof.
  intros Hbtc Hnd Hrates Hbad.
  rewrite (convert_prices_pass _ _ Hbtc _ Hnd).
  by apply with_price_usd_all_stops.
Qed.

(** X20: when the index frame has no [avg_btc_price_usd] column, the loop
    raises [KeyError] in its first pass and converts nothing.  The left
    operand is read first, so the error names [weightedAverage] when the
    first frame lacks that column, and [avg_btc_price_usd] otherwise.
    With no altcoin frame at all nothing is read and the loop
    completes. *)
Theorem conversion_without_index_column (btc_usd_datasets : DataFrame)
    (altcoin_data : list (string * DataFrame)) :
  "avg_btc_price_usd" ∉ df_labels btc_usd_datasets ->
  convert_prices_to_usd btc_usd_datasets altcoin_data
  = match altcoin_data with
    | [] => (inr tt, [])
    | (_, df) :: _ =>
        (inl (KeyError (if decide ("weightedAverage" ∈ df_labels df)
                        then "avg_btc_price_usd" else "weightedAverage")),
         altcoin_data)
    end.
Proof.
  intros Hbad. destruct altcoin_data as [|[k df] rest]; [done|].
  by apply convert_without_index.
Qed.

(** X21: running the conversion cell a second time changes nothing: the
    loop completes again and every frame is what the first run made of
    it. *)
Theorem conversion_twice (btc_usd_datasets : DataFrame)
    (altcoin_data altcoin_data' : list (string * DataFrame)) :
  NoDup (PyDict.keys altcoin_data) ->
  convert_prices_to_usd btc_usd_datasets altcoin_data
    = (inr tt, altcoin_data') ->
  convert_prices_to_usd btc_usd_datasets altcoin_data'
  = (inr tt, altcoin_data').
Proof.
  intros Hnd Hrun.
  destruct (convert_completes _ _ _ Hnd Hrun)
    as [[-> ->]|(btc_price & Hbtc & Hall)]; [done|].
  rewrite (convert_prices_pass _ _ Hbtc).
  - by eapply converts_again.
  - by rewrite (converts_keys _ _ _ Hall).
Qed.

(** X22: the conversion cell followed by the merge cell.  When the
    conversion has completed, merging [altcoin_data] on [price_usd] cannot
    fail, and the combined table has one column per altcoin, in the order
    of the keys. *)
Theorem converted_frames_merge (btc_usd_datasets : DataFrame)
    (altcoin_data altcoin_data' : list (string * DataFrame)) :
  NoDup (PyDict.keys altcoin_data) ->
  convert_prices_to_usd btc_usd_datasets altcoin_data
    = (inr tt, altcoin_data') ->
  exists combined_df,
    merge_dict altcoin_data' "price_usd" = inr combined_df
    /\ df_labels combined_df = PyDict.keys altcoin_data.
Proof.
  intros Hnd Hrun.
  destruct (convert_completes _ _ _ Hnd Hrun)
    as [[-> ->]|(btc_price & Hbtc & Hall)].
  { eexists. by split. }
  pose proof (converts_keys _ _ _ Hall) as Hkeys.
  destruct (merge_dict_returns altcoin_data' "price_usd") as (t & Ht & Hl & _).
  - by rewrite Hkeys.
  - unfold PyDict.values. apply Forall_fmap.
    clear -Hall. induction Hall as [|[k v] [k' v'] d d' [_ Hv] _ IH];
      constructor; [|done].
    cbn in *. by eapply with_price_usd_column.
  - exists t. split; [done|]. by rewrite Hl.
Qed.

(** ** The exchange cell *)

Section ExchangeFacts.

Context {DF : Type} `{!Pickle DF}.
Variable quandl_response : string -> exn + DF.

Lemma get_quandl_data_keeps_cached (quandl_id : string) (w : World)
    (path : string) (df : DF) :
  cached w path df ->
  cached (get_quandl_data quandl_response quandl_id w).2 path df.
Proof.
  intros (content & Hfile & Hload). exists content. split; [|done].
  exact (fetch_keeps_cached quandl_response quandl_response
           (QuandlCall quandl_id) w path content df Hfile Hload).
Qed.

Lemma exchange_loop_cached (names : list string) :
  forall (acc data : list (string * DF)) (w w' : World),
    exchange_loop quandl_response names acc w = ((inr tt, data), w') ->
    Forall (exchange_cached w) acc ->
    Forall (exchange_cached w') data
    /\ PyDict.keys data
       = foldl (fun ks k => if decide (k ∈ ks) then ks else ks ++ [k])
               (PyDict.keys acc) names.
Proof.
  induction names as [|name names IH]; intros acc data w w' Hrun Hacc.
  { cbn in Hrun. injection Hrun as <- <-. by split. }
  cbn [exchange_loop foldl] in *.
  destruct (get_quandl_data quandl_response _ w) as [[e|df] w1] eqn:Hstep;
    [done|].
  rewrite <- keys_setitem with (v := df).
  apply (IH _ _ _ _ Hrun).
  pose proof (fetch_returns_cached quandl_response quandl_response
                (QuandlCall ("BCHARTS/" +:+ name +:+ "USD")) w w1 df Hstep)
    as Hnew.
  assert (forall kv, exchange_cached w kv -> exchange_cached w1 kv) as Hkeep.
  { intros kv Hkv.
    pose proof (get_quandl_data_keeps_cached
                  ("BCHARTS/" +:+ name +:+ "USD") w _ _ Hkv) as Hk.
    by rewrite Hstep in Hk. }
  clear -Hacc Hnew Hkeep.
  induction Hacc as [|[k0 v0] acc Hkv Hacc IHacc]; cbn.
  - by repeat constructor.
  - case_decide as Hk; constructor; auto.
    + by subst k0.
    + by eapply Forall_impl.
Qed.

(** X23: the cell that pulls the exchanges.  When it completes,
    [exchange_data] has the keys [KRAKEN], [COINBASE], [BITSTAMP] and
    [ITBIT] in this order, and the table under each key is the one that
    the cache file of its Quandl code, [BCHARTS/<key>USD], now holds. *)
Theorem exchange_data_is_cached (exchange_data : list (string * DF))
    (w w' : World) :
  pull_exchanges quandl_response w = ((inr tt, exchange_data), w') ->
  PyDict.keys exchange_data = ["KRAKEN"; "COINBASE"; "BITSTAMP"; "ITBIT"]
  /\ Forall (exchange_cached w') exchange_data.
Proof.
  unfold pull_exchanges.
  destruct (get_quandl_data quandl_response "BCHARTS/KRAKENUSD" w)
    as [[e|kraken] w1] eqn:Hkraken; [done|].
  intros Hrun.
  destruct (exchange_loop_cached _ _ _ _ _ Hrun) as [Hall Hkeys].
  - cbn. constructor; [|constructor].
    exact (fetch_returns_cached quandl_response quandl_response
             (QuandlCall "BCHARTS/KRAKENUSD") w w1 kraken Hkraken).
  - split; [|done]. rewrite Hkeys. by vm_compute.
Qed.

End ExchangeFacts.

(** ** The further properties on the sample data *)

(** X1, witness: the Kraken table is cached. *)
Lemma cache_hit_is_trusted_witness :
  exists w',
    get_quandl_data Sample.quandl "BCHARTS/KRAKENUSD" Sample.warm
      = (inr Sample.kraken_table, w')
    /\ files w' = files Sample.warm
    /\ requests w' = []
    /\ stdout w' = ["Loaded BCHARTS/KRAKENUSD from cache"].
Proof.
  apply (cache_hit_is_trusted Sample.quandl Sample.poloniex
           (QuandlCall "BCHARTS/KRAKENUSD") Sample.warm
           (Sample.framed_dumps Sample.kraken_table) Sample.kraken_table);
    reflexivity.
Defined.


(** X3, witness: a failing call, a call of the cached identifier and a
    download under another name leave the Kraken file as it was. *)
Lemma readable_entry_survives_witness :
  files (run_calls Sample.quandl Sample.poloniex
           [QuandlCall "BCHARTS/NONE"; QuandlCall "BCHARTS/KRAKENUSD";
            JsonCall "https://poloniex.com/public?currencyPair=BTC_ETH"
              "BTC_ETH"]
           Sample.warm)
    !! "data/BCHARTS-KRAKENUSD.pkl"
  = Some (Sample.framed_dumps Sample.kraken_table).
Proof.
  apply (readable_entry_survives Sample.quandl Sample.poloniex _ Sample.warm
           "data/BCHARTS-KRAKENUSD.pkl"
           (Sample.framed_dumps Sample.kraken_table) Sample.kraken_table);
    reflexivity.
Defined.

(** X5, witness: [BCHARTS-KRAKENUSD] is no dataset of the provider, yet it
    is answered with the Kraken table. *)
Lemma quandl_identifiers_collide_witness :
  Sample.quandl "BCHARTS-KRAKENUSD" = inl (ValueError "unknown dataset")
  /\ exists w1 w2,
       get_quandl_data Sample.quandl "BCHARTS/KRAKENUSD" Sample.cold
         = (inr Sample.kraken_table, w1)
       /\ get_quandl_data Sample.quandl "BCHARTS-KRAKENUSD" w1
         = (inr Sample.kraken_table, w2)
       /\ requests w2 = ["BCHARTS/KRAKENUSD"].
Proof.
  split; [reflexivity|].
  apply (quandl_identifiers_collide Sample.quandl Sample.poloniex
           "BCHARTS/KRAKENUSD" "BCHARTS-KRAKENUSD" Sample.cold
           Sample.kraken_table); by vm_compute.
Defined.

(** X6, witness: the second URL is unknown to the provider. *)
Lemma json_cache_ignores_url_witness :
  Sample.poloniex "https://poloniex.com/public?currencyPair=BTC_LTC"
    = inl (URLError "not found")
  /\ exists w1 w2,
       get_json_data Sample.poloniex
         "https://poloniex.com/public?currencyPair=BTC_ETH" "pair" Sample.cold
         = (inr [Byte.x45], w1)
       /\ get_json_data Sample.poloniex
            "https://poloniex.com/public?currencyPair=BTC_LTC" "pair" w1
         = (inr [Byte.x45], w2)
       /\ requests w2 = ["https://poloniex.com/public?currencyPair=BTC_ETH"].
Proof.
  split; [reflexivity|].
  apply (json_cache_ignores_url Sample.quandl Sample.poloniex
           "https://poloniex.com/public?currencyPair=BTC_ETH"
           "https://poloniex.com/public?currencyPair=BTC_LTC" "pair"
           Sample.cold [Byte.x45]); by vm_compute.
Defined.

(** X7, witness: a download into the empty cache. *)
Lemma returning_call_witness :
  let w' := (get_quandl_data Sample.quandl "BCHARTS/KRAKENUSD" Sample.cold).2 in
  cached w' "data/BCHARTS-KRAKENUSD.pkl" Sample.kraken_table
  /\ ((stdout w' = ["Loaded BCHARTS/KRAKENUSD from cache"]
       /\ requests w' = [] /\ files w' = ∅)
      \/ (stdout w'
          = ["Downloading BCHARTS/KRAKENUSD from Quandl";
             "Cached BCHARTS/KRAKENUSD at data/BCHARTS-KRAKENUSD.pkl"]
          /\ requests w' = ["BCHARTS/KRAKENUSD"]
          /\ files w'
             = <["data/BCHARTS-KRAKENUSD.pkl" := dumps Sample.kraken_table]> ∅)).
Proof.
  apply (returning_call Sample.quandl Sample.poloniex
           (QuandlCall "BCHARTS/KRAKENUSD") Sample.cold _ Sample.kraken_table).
  by vm_compute.
Defined.

(** X8, witness: the provider does not answer the URL of the second
    session at all. *)
Lemma crypto_cache_outlives_window_witness :
  Sample.chart
    (base_polo_url_format "BTC_ETH" "1420070400.0" "1600000000.0" pediod)
    = inl (URLError "not found")
  /\ exists w1 w2,
       get_crypto_data Sample.chart Sample.set_index
         "1420070400.0" "1500000000.0" "BTC_ETH" Sample.cold
         = (inr [Byte.x64; Byte.x45], w1)
       /\ get_crypto_data Sample.chart Sample.set_index
            "1420070400.0" "1600000000.0" "BTC_ETH" w1
         = (inr [Byte.x64; Byte.x45], w2)
       /\ requests w2
          = [base_polo_url_format "BTC_ETH" "1420070400.0" "1500000000.0"
               pediod]
       /\ files w2 = files w1.
Proof.
  split; [by vm_compute|].
  apply (crypto_cache_outlives_window Sample.chart Sample.set_index
           "1420070400.0" "1500000000.0" "1420070400.0" "1600000000.0"
           "BTC_ETH" Sample.cold [Byte.x45]); by vm_compute.
Defined.

(** X9, witness: a table on which [set_index] raises. *)
Lemma unusable_answer_is_cached_witness :
  exists w1 w2,
    get_crypto_data Sample.chart (fun _ col => inl (KeyError col))
      "1420070400.0" "1500000000.0" "BTC_ETH" Sample.cold
      = (inl (KeyError "date"), w1)
    /\ cached w1 "data/BTC_ETH.pkl" [Byte.x45]
    /\ get_crypto_data Sample.chart (fun _ col => inl (KeyError col))
         "1420070400.0" "1600000000.0" "BTC_ETH" w1
      = (inl (KeyError "date"), w2)
    /\ requests w2 = requests w1
    /\ files w2 = files w1.
Proof.
  apply (unusable_answer_is_cached Sample.chart
           (fun _ col => inl (KeyError col))
           "1420070400.0" "1500000000.0" "1420070400.0" "1600000000.0"
           "BTC_ETH" Sample.cold [Byte.x45] (KeyError "date")); by vm_compute.
Defined.

(** X10, witness: the loop over [ETH] alone, then again in a later
    session. *)
Lemma altcoin_loop_rerun_is_offline_witness :
  let w1 :=
    (altcoin_loop Sample.chart Sample.set_index "1420070400.0" "1500000000.0"
       ["ETH"] [] Sample.cold).2 in
  exists w2,
    altcoin_loop Sample.chart Sample.set_index "1420070400.0" "1600000000.0"
      ["ETH"] [] w1
      = ((inr tt, [("ETH", [Byte.x64; Byte.x45])]), w2)
    /\ files w2 = files w1
    /\ requests w2 = requests w1.
Proof.
  apply (altcoin_loop_rerun_is_offline Sample.chart Sample.set_index
           "1420070400.0" "1500000000.0" "1420070400.0" "1600000000.0"
           ["ETH"] [("ETH", [Byte.x64; Byte.x45])] Sample.cold).
  by vm_compute.
Defined.

(** X11, witness: two frames and one label. *)
Lemma merge_too_few_labels_witness :
  merge_dfs_on_column [Sample.kraken; Sample.itbit] ["KRAKEN"] "Weighted Price"
  = inl IndexError.
Proof.
  apply (merge_too_few_labels [Sample.kraken; Sample.itbit] ["KRAKEN"]
           "Weighted Price").
  - repeat constructor.
  - cbn. lia.
Defined.

(** X13, witness: both frames under one label give one column. *)
Lemma merged_table_is_well_formed_witness :
  exists t,
    merge_dfs_on_column [Sample.kraken; Sample.itbit] ["BTC"; "BTC"]
      "Weighted Price" = inr t
    /\ wf_frame t
    /\ NoDup (df_labels t)
    /\ (length (df_columns t) <= 2)%nat.
Proof.
  eexists. split; [reflexivity|].
  apply (merged_table_is_well_formed [Sample.kraken; Sample.itbit]
           ["BTC"; "BTC"] "Weighted Price").
  reflexivity.
Defined.

(** X14, witness: under the label given twice stands the itBit series. *)
Lemma repeated_label_last_frame_wins_witness :
  exists t,
    merge_dfs_on_column [Sample.kraken; Sample.itbit] ["BTC"; "BTC"]
      "Weighted Price" = inr t
    /\ df_getitem t "BTC"
       = inr (reindex {[1 := Num 11; 2 := Num 21]} (df_index t)).
Proof.
  eexists. split; [reflexivity|].
  apply (repeated_label_last_frame_wins [Sample.kraken; Sample.itbit]
           ["BTC"; "BTC"] "Weighted Price"
           [{[2 := Num 20; 3 := Num 30]}; {[1 := Num 11; 2 := Num 21]}]
           _ 1%nat "BTC").
  - repeat constructor.
  - reflexivity.
  - reflexivity.
  - reflexivity.
  - intros k Hlt Hlen. cbn in Hlen. lia.
Defined.

(** X15, witness: the two exchanges as a dictionary. *)
Lemma merge_dict_columns_witness :
  exists t,
    merge_dict [("KRAKEN", Sample.kraken); ("ITBIT", Sample.itbit)]
      "Weighted Price" = inr t
    /\ df_labels t = ["KRAKEN"; "ITBIT"]
    /\ length (df_columns t) = 2%nat.
Proof.
  apply (merge_dict_columns
           [("KRAKEN", Sample.kraken); ("ITBIT", Sample.itbit)]
           "Weighted Price").
  - apply (bool_decide_unpack _). by vm_compute.
  - repeat constructor.
Defined.

(** X16, witness: a table over days 2 to 4 and an average over days 1 to
    3: day 4 is unset, day 1 is dropped. *)
Lemma btc_column_is_aligned_witness :
  exists t,
    add_btc_column Sample.eth Sample.btc_index = inr t
    /\ df_index t = {[2; 3; 4]}
    /\ df_cell t "BTC" 2 = Some (Num 200)
    /\ df_cell t "BTC" 4 = Some NaN
    /\ df_cell t "BTC" 1 = None
    /\ df_labels t = ["weightedAverage"; "BTC"].
Proof.
  destruct (btc_column_is_aligned Sample.eth Sample.btc_index
              {[1 := Num 100; 2 := Num 200; 3 := NaN]})
    as (t & Hrun & Hrows & Hcell & _ & Hlabels & _).
  - reflexivity.
  - apply (bool_decide_unpack _). by vm_compute.
  - exists t. split; [exact Hrun|]. split; [exact Hrows|].
    rewrite !Hcell. split; [reflexivity|]. split; [reflexivity|].
    split; [reflexivity|]. apply Hlabels.
    apply (bool_decide_unpack _). by vm_compute.
Defined.

(** X17, witness: the frame of [ETH] keeps its three rows. *)
Lemma conversion_keeps_frames_witness :
  let altcoin_data' :=
    (convert_prices_to_usd Sample.btc_index [("ETH", Sample.eth)]).2 in
  PyDict.keys altcoin_data' = ["ETH"]
  /\ exists df',
       PyDict.getitem altcoin_data' "ETH" = inr df'
       /\ "price_usd" ∈ df_labels df'
       /\ df_index df' = {[2; 3; 4]}.
Proof.
  destruct (conversion_keeps_frames Sample.btc_index [("ETH", Sample.eth)]
              (convert_prices_to_usd Sample.btc_index [("ETH", Sample.eth)]).2)
    as [Hkeys Hframes].
  - apply (bool_decide_unpack _). by vm_compute.
  - by vm_compute.
  - split; [exact Hkeys|].
    destruct (Hframes "ETH" Sample.eth) as (df' & Hget & Hcol & Hkeep & _);
      [reflexivity|].
    exists df'. split; [exact Hget|]. split; [exact Hcol|].
    apply Hkeep. apply (bool_decide_unpack _). by vm_compute.
Defined.

(** X18, witness: on day 2 the rate is 1/2 and the Bitcoin price 200; on
    day 3 the Bitcoin price is unset. *)
Lemma price_usd_is_the_product_witness :
  exists df',
    PyDict.getitem
      (convert_prices_to_usd Sample.btc_index [("ETH", Sample.eth)]).2 "ETH"
      = inr df'
    /\ df_cell df' "price_usd" 2 = Some (Num ((1 # 2) * 200))
    /\ df_cell df' "price_usd" 3 = Some NaN.
Proof.
  destruct (price_usd_is_the_product Sample.btc_index
              {[1 := Num 100; 2 := Num 200; 3 := NaN]}
              {[2 := Num (1 # 2); 3 := Num (1 # 4); 4 := Num (1 # 5)]}
              [("ETH", Sample.eth)]
              (convert_prices_to_usd Sample.btc_index [("ETH", Sample.eth)]).2
              "ETH" Sample.eth)
    as (df' & Hget & Hcell).
  - apply (bool_decide_unpack _). by vm_compute.
  - reflexivity.
  - by vm_compute.
  - reflexivity.
  - reflexivity.
  - exists df'. split; [exact Hget|].
    assert (df_index df' = {[2; 3; 4]}) as Hrows.
    { vm_compute in Hget. injection Hget as <-. reflexivity. }
    rewrite !Hcell by (rewrite Hrows; apply (bool_decide_unpack _); by vm_compute).
    split; reflexivity.
Defined.

(** X19, witness: the second frame has no [weightedAverage] column. *)
Lemma conversion_stops_at_first_bad_frame_witness :
  exists eth',
    convert_prices_to_usd Sample.btc_index
      [("ETH", Sample.eth); ("LTC", Sample.bare)]
    = (inl (KeyError "weightedAverage"), [("ETH", eth'); ("LTC", Sample.bare)])
    /\ "price_usd" ∈ df_labels eth'.
Proof.
  destruct (conversion_stops_at_first_bad_frame Sample.btc_index
              {[1 := Num 100; 2 := Num 200; 3 := NaN]}
              [("ETH", Sample.eth)] [] "LTC" Sample.bare)
    as (ok' & Hrun & Hok).
  - reflexivity.
  - apply (bool_decide_unpack _). by vm_compute.
  - repeat constructor.
  - apply (bool_decide_unpack _). by vm_compute.
  - apply Forall2_cons_inv_l in Hok as ([k eth'] & rest & [Hk Hdf] & Hrest & ->).
    apply Forall2_nil_inv_l in Hrest as ->. cbn in Hk, Hdf. subst k.
    exists eth'. split; [exact Hrun|]. by eapply with_price_usd_column.
Defined.

(** X20, witness: a frame without the average column as the index. *)
Lemma conversion_without_index_column_witness :
  convert_prices_to_usd Sample.bare [("ETH", Sample.eth)]
  = (inl (KeyError "avg_btc_price_usd"), [("ETH", Sample.eth)]).
Proof.
  rewrite (conversion_without_index_column Sample.bare [("ETH", Sample.eth)]).
  - reflexivity.
  - apply (bool_decide_unpack _). by vm_compute.
Defined.

(** X21, witness: the sample conversion run again. *)
Lemma conversion_twice_witness :
  let altcoin_data' :=
    (convert_prices_to_usd Sample.btc_index [("ETH", Sample.eth)]).2 in
  convert_prices_to_usd Sample.btc_index altcoin_data'
  = (inr tt, altcoin_data').
Proof.
  apply (conversion_twice Sample.btc_index [("ETH", Sample.eth)]).
  - apply (bool_decide_unpack _). by vm_compute.
  - by vm_compute.
Defined.

(** X22, witness: the combined table of the sample conversion. *)
Lemma converted_frames_merge_witness :
  exists combined_df,
    merge_dict
      (convert_prices_to_usd Sample.btc_index [("ETH", Sample.eth)]).2
      "price_usd" = inr combined_df
    /\ df_labels combined_df = ["ETH"].
Proof.
  apply (converted_frames_merge Sample.btc_index [("ETH", Sample.eth)]).
  - apply (bool_decide_unpack _). by vm_compute.
  - by vm_compute.
Defined.

(** X23, witness: the provider knows Kraken only, so the cell completes
    when the other three tables are in the cache. *)
Lemma exchange_data_is_cached_witness :
  let w :=
    mkWorld
      {[ "data/BCHARTS-COINBASEUSD.pkl" := Sample.framed_dumps [Byte.x43];
         "data/BCHARTS-BITSTAMPUSD.pkl" := Sample.framed_dumps [Byte.x42];
         "data/BCHARTS-ITBITUSD.pkl" := Sample.framed_dumps [Byte.x49] ]}
      true Sample.in_data_dir [] [] in
  let exchange_data :=
    [("KRAKEN", Sample.kraken_table); ("COINBASE", [Byte.x43]);
     ("BITSTAMP", [Byte.x42]); ("ITBIT", [Byte.x49])] in
  PyDict.keys exchange_data = ["KRAKEN"; "COINBASE"; "BITSTAMP"; "ITBIT"]
  /\ Forall (exchange_cached (pull_exchanges Sample.quandl w).2) exchange_data.
Proof.
  intros w exchange_data.
  apply (exchange_data_is_cached Sample.quandl exchange_data w
           (pull_exchanges Sample.quandl w).2).
  by vm_compute.
Defined.
